(** * QR payload validation and encoding (src/utils/qrCode.ts)

    A shallow embedding of the validators, the string builders and the
    dispatcher of [generateQRCode], together with the properties of the
    specification that concern them.

    JavaScript strings are sequences of UTF-16 code units; they are
    modelled as lists of numbers, a string literal of the source being
    written [lit "..."]. *)

From Stdlib Require Import List NArith Bool String Ascii Lia DecimalString.
Import ListNotations.

Local Open Scope N_scope.
Local Open Scope list_scope.

(** ** Strings *)

Abbreviation code_unit := N (only parsing).
Abbreviation jsstring := (list N) (only parsing).

Definition lit (s : string) : jsstring :=
  map N_of_ascii (list_ascii_of_string s).

(** The line feed of the template literals. *)
Definition LF : code_unit := 10.

Definition jsstring_eq_dec (a b : jsstring) : {a = b} + {a <> b} :=
  list_eq_dec N.eq_dec a b.

(** [a === b] on strings. *)
Definition strictEq (a b : jsstring) : bool :=
  if jsstring_eq_dec a b then true else false.

(** ToBoolean on a string: only the empty string is falsy. *)
Definition truthy (s : jsstring) : bool :=
  match s with [] => false | _ :: _ => true end.

(** [s || d] on strings. *)
Definition orElse (s d : jsstring) : jsstring :=
  if truthy s then s else d.

(** WhiteSpace and LineTerminator of ECMA-262: what [trim] strips and what
    the class escape [\s] matches. *)
Definition isWhiteSpace (c : code_unit) : bool :=
  ((9 <=? c) && (c <=? 13))
  || (c =? 32) || (c =? 0xA0) || (c =? 0x1680)
  || ((0x2000 <=? c) && (c <=? 0x200A))
  || (c =? 0x2028) || (c =? 0x2029) || (c =? 0x202F) || (c =? 0x205F)
  || (c =? 0x3000) || (c =? 0xFEFF).

Definition isDigit (c : code_unit) : bool := (48 <=? c) && (c <=? 57).
Definition isUpper (c : code_unit) : bool := (65 <=? c) && (c <=? 90).
Definition isLower (c : code_unit) : bool := (97 <=? c) && (c <=? 122).
Definition isAlpha (c : code_unit) : bool := isUpper c || isLower c.

Definition memb (c : code_unit) (s : jsstring) : bool := existsb (N.eqb c) s.

Fixpoint trimStart (s : jsstring) : jsstring :=
  match s with
  | [] => []
  | c :: r => if isWhiteSpace c then trimStart r else s
  end.

Definition trimEnd (s : jsstring) : jsstring := rev (trimStart (rev s)).

(** [String.prototype.trim]. *)
Definition trim (s : jsstring) : jsstring := trimEnd (trimStart s).

(** [Array.prototype.join]. *)
Fixpoint join (sep : jsstring) (l : list jsstring) : jsstring :=
  match l with
  | [] => []
  | [x] => x
  | x :: r => x ++ sep ++ join sep r
  end.

(** [s.replace(/;/g, '')]. *)
Definition removeSemicolons (s : jsstring) : jsstring :=
  filter (fun c => negb (c =? 59)) s.

(** [s.replace(/([A-Z])/g, ' $1')]: a space goes before every capital. *)
Definition spaceBeforeCapitals (s : jsstring) : jsstring :=
  flat_map (fun c => if isUpper c then [32; c] else [c]) s.

(** [String.prototype.toLowerCase] on the ASCII range, where it maps A..Z
    to a..z and keeps everything else. The source applies it to the
    property names of [phoneFields] only, which are ASCII. *)
Definition toLowerCase (s : jsstring) : jsstring :=
  map (fun c => if isUpper c then c + 32 else c) s.

(** ** Thrown values and results *)

(** What a [throw] or a rejected promise carries: an [Error] with its
    message, the [URIError] of [encodeURIComponent], or a value that is no
    instance of [Error]. *)
Inductive thrown : Type :=
| ErrorObj (message : jsstring)
| URIErrorObj
| NonError (value : jsstring).

Definition instanceofError (e : thrown) : bool :=
  match e with
  | ErrorObj _ | URIErrorObj => true
  | NonError _ => false
  end.

Inductive result (A : Type) : Type :=
| Return (a : A)
| Throw (e : thrown).

Arguments Return {A} a.
Arguments Throw {A} e.

Definition bind {A B} (m : result A) (k : A -> result B) : result B :=
  match m with
  | Return a => k a
  | Throw e => Throw e
  end.

Notation "x <- m ;; k" := (bind m (fun x => k))
  (at level 61, m at next level, right associativity).
Notation "m ;;; k" := (bind m (fun _ => k))
  (at level 61, right associativity).

(** [if (c) throw new Error(msg)]. *)
Definition throwIf (c : bool) (msg : string) : result unit :=
  if c then Throw (ErrorObj (lit msg)) else Return tt.

(** [Array.prototype.forEach] with a callback that may throw: the first
    throw ends the iteration. *)
Fixpoint forEach {A} (l : list A) (f : A -> result unit) : result unit :=
  match l with
  | [] => Return tt
  | x :: r => f x ;;; forEach r f
  end.

(** ** Regular expressions

    The patterns of the source are anchored with [^] and [$] and carry no
    flag, so [s.match(re)] is truthy exactly when the whole of [s] is in
    the language of the pattern. Matching is by Brzozowski derivatives. *)

Inductive regex : Type :=
| RNone
| REps
| RClass (p : code_unit -> bool)
| RSeq (r1 r2 : regex)
| RAlt (r1 r2 : regex)
| RStar (r : regex).

(** [r+]. *)
Definition RPlus (r : regex) : regex := RSeq r (RStar r).

Definition RChar (c : code_unit) : regex := RClass (N.eqb c).

Fixpoint nullable (r : regex) : bool :=
  match r with
  | RNone => false
  | REps => true
  | RClass _ => false
  | RSeq a b => nullable a && nullable b
  | RAlt a b => nullable a || nullable b
  | RStar _ => true
  end.

Fixpoint deriv (c : code_unit) (r : regex) : regex :=
  match r with
  | RNone => RNone
  | REps => RNone
  | RClass p => if p c then REps else RNone
  | RSeq a b =>
      if nullable a then RAlt (RSeq (deriv c a) b) (deriv c b)
      else RSeq (deriv c a) b
  | RAlt a b => RAlt (deriv c a) (deriv c b)
  | RStar a => RSeq (deriv c a) (RStar a)
  end.

Fixpoint matches (r : regex) (s : jsstring) : bool :=
  match s with
  | [] => nullable r
  | c :: s' => matches (deriv c r) s'
  end.

(** The language of a pattern. *)
Inductive star (L : jsstring -> Prop) : jsstring -> Prop :=
| star_nil : star L []
| star_app s1 s2 : L s1 -> star L s2 -> star L (s1 ++ s2).

Fixpoint lang (r : regex) (s : jsstring) : Prop :=
  match r with
  | RNone => False
  | REps => s = []
  | RClass p => exists c, s = [c] /\ p c = true
  | RSeq a b => exists s1 s2, s = s1 ++ s2 /\ lang a s1 /\ lang b s2
  | RAlt a b => lang a s \/ lang b s
  | RStar a => star (lang a) s
  end.

(** The code units a pattern can consume. *)
Fixpoint alphabet (r : regex) : code_unit -> bool :=
  match r with
  | RNone | REps => fun _ => false
  | RClass p => p
  | RSeq a b | RAlt a b => fun c => alphabet a c || alphabet b c
  | RStar a => alphabet a
  end.

(** [/^[^\s@]+@[^\s@]+\.[^\s@]+$/] *)
Definition notSpaceNorAt (c : code_unit) : bool :=
  negb (isWhiteSpace c || (c =? 64)).

Definition emailPattern : regex :=
  RSeq (RPlus (RClass notSpaceNorAt))
    (RSeq (RChar 64)
       (RSeq (RPlus (RClass notSpaceNorAt))
          (RSeq (RChar 46) (RPlus (RClass notSpaceNorAt))))).

(** [/^[+\d\s-()]+$/]: in a class, a hyphen next to the class escape [\s]
    stands for itself. *)
Definition phoneChar (c : code_unit) : bool :=
  (c =? 43) || isDigit c || isWhiteSpace c || (c =? 45) || (c =? 40) || (c =? 41).

Definition phonePattern : regex := RPlus (RClass phoneChar).

(** ** Data model (src/types/index.ts) *)

Module VCardData.
Record t : Type := mk {
  firstName : jsstring;
  lastName : jsstring;
  mobile : jsstring;
  phone : jsstring;
  workPhone : jsstring;
  fax : jsstring;
  email : jsstring;
  company : jsstring;
  jobTitle : jsstring;
  street : jsstring;
  city : jsstring;
  zip : jsstring;
  state : jsstring;
  country : jsstring;
  website : jsstring
}.

(** The own properties, in declaration order. *)
Definition properties : list (string * (t -> jsstring)) :=
  [ ("firstName", firstName); ("lastName", lastName); ("mobile", mobile);
    ("phone", phone); ("workPhone", workPhone); ("fax", fax);
    ("email", email); ("company", company); ("jobTitle", jobTitle);
    ("street", street); ("city", city); ("zip", zip); ("state", state);
    ("country", country); ("website", website) ]%string.

(** [data[field as keyof VCardData]]; [None] is [undefined]. *)
Fixpoint lookup (ps : list (string * (t -> jsstring))) (d : t)
  (field : jsstring) : option jsstring :=
  match ps with
  | [] => None
  | (name, get) :: rest =>
      if strictEq field (lit name) then Some (get d) else lookup rest d field
  end.

Definition get (d : t) (field : jsstring) : option jsstring :=
  lookup properties d field.
End VCardData.

Module EmailData.
Record t : Type := mk {
  email : jsstring;
  subject : jsstring;
  body : jsstring
}.
End EmailData.

Module SMSData.
Record t : Type := mk {
  phone : jsstring;
  message : jsstring
}.
End SMSData.

Module WiFiData.
Inductive encryption_t : Type := WPA | WEP | nopass.

Record t : Type := mk {
  ssid : jsstring;
  password : jsstring;
  encryption : encryption_t;
  hidden : bool
}.

(** The string an encryption tag is. *)
Definition encryptionString (e : encryption_t) : jsstring :=
  match e with
  | WPA => lit "WPA"
  | WEP => lit "WEP"
  | nopass => lit "nopass"
  end.

(** [data.encryption !== 'nopass']. *)
Definition isNotNopass (e : encryption_t) : bool :=
  negb (strictEq (encryptionString e) (lit "nopass")).
End WiFiData.

Record QRCodeParams : Type := mkParams {
  url : jsstring;
  vcardData : VCardData.t;
  emailData : EmailData.t;
  smsData : SMSData.t;
  text : jsstring;
  wifiData : WiFiData.t
}.

(** ** [encodeURIComponent] (ECMA-262, Encode)

    Unreserved code units are copied; any other code point is written as
    the percent-escapes of its UTF-8 octets; a lone surrogate throws a
    [URIError]. *)

Definition uriUnreserved (c : code_unit) : bool :=
  isAlpha c || isDigit c || memb c (lit "-_.!~*'()").

Definition isLeadSurrogate (c : code_unit) : bool := (0xD800 <=? c) && (c <=? 0xDBFF).
Definition isTrailSurrogate (c : code_unit) : bool := (0xDC00 <=? c) && (c <=? 0xDFFF).

Definition hexDigit (n : N) : code_unit :=
  if n <? 10 then 48 + n else 55 + n.

Definition percentEscape (octet : N) : jsstring :=
  [37; hexDigit ((octet / 16) mod 16); hexDigit (octet mod 16)].

Definition utf8 (cp : N) : list N :=
  if cp <? 0x80 then [cp]
  else if cp <? 0x800 then [0xC0 + cp / 64; 0x80 + cp mod 64]
  else if cp <? 0x10000 then
    [0xE0 + cp / 4096; 0x80 + (cp / 64) mod 64; 0x80 + cp mod 64]
  else
    [0xF0 + cp / 262144; 0x80 + (cp / 4096) mod 64;
     0x80 + (cp / 64) mod 64; 0x80 + cp mod 64].

Definition surrogatePair (lead trail : code_unit) : N :=
  0x10000 + (lead - 0xD800) * 0x400 + (trail - 0xDC00).

Fixpoint encodeURIComponent (s : jsstring) : result jsstring :=
  match s with
  | [] => Return []
  | c :: r =>
      if uriUnreserved c then
        e <- encodeURIComponent r ;; Return (c :: e)
      else if isLeadSurrogate c then
        match r with
        | d :: r' =>
            if isTrailSurrogate d then
              e <- encodeURIComponent r' ;;
              Return (flat_map percentEscape (utf8 (surrogatePair c d)) ++ e)
            else Throw URIErrorObj
        | [] => Throw URIErrorObj
        end
      else if isTrailSurrogate c then Throw URIErrorObj
      else
        e <- encodeURIComponent r ;;
        Return (flat_map percentEscape (utf8 c) ++ e)
  end.

(** ** Validators and builders (src/utils/qrCode.ts) *)

Section Validators.

(** [new URL(s).toString()]; [None] when the constructor throws. *)
Variable URL_href : jsstring -> option jsstring.

Definition validateUrl (url : jsstring) : result jsstring :=
  let trimmedUrl := trim url in
  if negb (truthy trimmedUrl) then Throw (ErrorObj (lit "Please enter a URL"))
  else
    match URL_href trimmedUrl with
    | Some href => Return href
    | None =>
        match URL_href (lit "https://" ++ trimmedUrl) with
        | Some href => Return href
        | None => Throw (ErrorObj (lit "Please enter a valid website URL"))
        end
    end.

Definition phoneFields : list jsstring :=
  [lit "mobile"; lit "phone"; lit "workPhone"; lit "fax"].

(** The callback of [phoneFields.forEach]. *)
Definition checkPhoneField (data : VCardData.t) (field : jsstring) : result unit :=
  match VCardData.get data field with
  | Some v =>
      if truthy v && negb (matches phonePattern v) then
        Throw (ErrorObj (lit "Please enter a valid "
                           ++ toLowerCase (spaceBeforeCapitals field)))
      else Return tt
  | None => Return tt
  end.

Definition validateVCardData (data : VCardData.t) : result unit :=
  throwIf (negb (truthy (trim (VCardData.firstName data)))
           || negb (truthy (trim (VCardData.lastName data))))
    "Please enter both first and last name" ;;;
  throwIf (truthy (VCardData.email data)
           && negb (matches emailPattern (VCardData.email data)))
    "Please enter a valid email address" ;;;
  forEach phoneFields (checkPhoneField data).

Definition validateEmailData (data : EmailData.t) : result unit :=
  throwIf (negb (truthy (trim (EmailData.email data))))
    "Please enter an email address" ;;;
  throwIf (negb (matches emailPattern (EmailData.email data)))
    "Please enter a valid email address".

Definition validateSMSData (data : SMSData.t) : result unit :=
  throwIf (negb (truthy (trim (SMSData.phone data))))
    "Please enter a phone number" ;;;
  throwIf (negb (matches phonePattern (SMSData.phone data)))
    "Please enter a valid phone number".

Definition validateText (text : jsstring) : result unit :=
  throwIf (negb (truthy (trim text))) "Please enter some text".

Definition validateWiFiData (data : WiFiData.t) : result unit :=
  throwIf (negb (truthy (trim (WiFiData.ssid data))))
    "Please enter a network name (SSID)" ;;;
  throwIf (WiFiData.isNotNopass (WiFiData.encryption data)
           && negb (truthy (trim (WiFiData.password data))))
    "Please enter a network password".

(** [if (v?.trim()) vcard += `\n<label>${v.trim()}`]. *)
Definition appendIfPresent (vcard : jsstring) (label : string) (v : jsstring) : jsstring :=
  if truthy (trim v) then vcard ++ LF :: lit label ++ trim v else vcard.

Definition generateVCardString (data : VCardData.t) : result jsstring :=
  validateVCardData data ;;;
  let vcard :=
    lit "BEGIN:VCARD" ++ LF ::
    lit "VERSION:3.0" ++ LF ::
    lit "FN:" ++ trim (VCardData.firstName data) ++ lit " "
      ++ trim (VCardData.lastName data) ++ LF ::
    lit "N:" ++ trim (VCardData.lastName data) ++ lit ";"
      ++ trim (VCardData.firstName data) ++ lit ";;;" in
  let vcard := appendIfPresent vcard "EMAIL:" (VCardData.email data) in
  let vcard := appendIfPresent vcard "TEL;TYPE=CELL:" (VCardData.mobile data) in
  let vcard := appendIfPresent vcard "TEL;TYPE=HOME:" (VCardData.phone data) in
  let vcard := appendIfPresent vcard "TEL;TYPE=WORK:" (VCardData.workPhone data) in
  let vcard := appendIfPresent vcard "TEL;TYPE=FAX:" (VCardData.fax data) in
  let vcard := appendIfPresent vcard "ORG:" (VCardData.company data) in
  let vcard := appendIfPresent vcard "TITLE:" (VCardData.jobTitle data) in
  let address :=
    join (lit ";")
      [ lit ""; lit "";
        orElse (trim (VCardData.street data)) (lit "");
        orElse (trim (VCardData.city data)) (lit "");
        orElse (trim (VCardData.state data)) (lit "");
        orElse (trim (VCardData.zip data)) (lit "");
        orElse (trim (VCardData.country data)) (lit "") ] in
  let vcard :=
    if truthy (removeSemicolons address)
    then vcard ++ LF :: lit "ADR:" ++ address else vcard in
  let vcard := appendIfPresent vcard "URL:" (VCardData.website data) in
  let vcard := vcard ++ LF :: lit "END:VCARD" in
  Return vcard.

Definition generateEmailString (data : EmailData.t) : result jsstring :=
  validateEmailData data ;;;
  subject <- encodeURIComponent (orElse (EmailData.subject data) (lit "")) ;;
  body <- encodeURIComponent (orElse (EmailData.body data) (lit "")) ;;
  Return (lit "mailto:" ++ EmailData.email data ++ lit "?subject=" ++ subject
            ++ lit "&body=" ++ body).

Definition generateSMSString (data : SMSData.t) : result jsstring :=
  validateSMSData data ;;;
  message <- encodeURIComponent (orElse (SMSData.message data) (lit "")) ;;
  Return (lit "sms:" ++ SMSData.phone data
            ++ (if truthy message then lit ":" ++ message else lit "")).

Definition generateWiFiString (data : WiFiData.t) : result jsstring :=
  validateWiFiData data ;;;
  let ssid := WiFiData.ssid data in
  let password := WiFiData.password data in
  let encryption := WiFiData.encryption data in
  let hidden := WiFiData.hidden data in
  Return (lit "WIFI:T:" ++ WiFiData.encryptionString encryption
            ++ lit ";S:" ++ ssid ++ lit ";P:" ++ password
            ++ (if hidden then lit ";H:true" else lit "") ++ lit ";;").

(** *** The dispatcher *)

(** The options object handed to [QRCode.toDataURL]. *)
Record QRCodeToDataURLOptions : Type := mkOptions {
  width : N;
  margin : N;
  errorCorrectionLevel : jsstring;
  color_dark : jsstring;
  color_light : jsstring
}.

Definition qrOptions : QRCodeToDataURLOptions :=
  {| width := 400; margin := 2; errorCorrectionLevel := lit "M";
     color_dark := lit "#000000"; color_light := lit "#ffffff" |}.

(** The awaited [QRCode.toDataURL(data, options)]: the data URI it resolves
    to, or what it rejects with. *)
Variable toDataURL : jsstring -> QRCodeToDataURLOptions -> result jsstring.

(** The [switch (type)] of [generateQRCode]: the text to rasterize. *)
Definition selectData (type : jsstring) (params : QRCodeParams) : result jsstring :=
  if strictEq type (lit "url") then validateUrl (url params)
  else if strictEq type (lit "vcard") then generateVCardString (vcardData params)
  else if strictEq type (lit "email") then generateEmailString (emailData params)
  else if strictEq type (lit "sms") then generateSMSString (smsData params)
  else if strictEq type (lit "text") then
    validateText (text params) ;;; Return (text params)
  else if strictEq type (lit "wifi") then generateWiFiString (wifiData params)
  else Throw (ErrorObj (lit "Invalid QR code type")).

(** The [catch] clause of [generateQRCode]. *)
Definition normalize (e : thrown) : thrown :=
  if instanceofError e then e
  else ErrorObj (lit "Failed to generate QR code. Please try again.").

(** [generateQRCode], threading the list of calls made to the rasterizer:
    the outcome of the promise and the calls made so far. *)
Definition generateQRCode (type : jsstring) (params : QRCodeParams)
  (calls : list (jsstring * QRCodeToDataURLOptions))
  : result jsstring * list (jsstring * QRCodeToDataURLOptions) :=
  let attempt :=
    match selectData type params with
    | Return data => (toDataURL data qrOptions, calls ++ [(data, qrOptions)])
    | Throw e => (Throw e, calls)
    end in
  match fst attempt with
  | Return dataUri => (Return dataUri, snd attempt)
  | Throw e => (Throw (normalize e), snd attempt)
  end.

End Validators.

(** ** The URL parser of the platform

    [new URL(s).toString()] runs the basic URL parser and the URL
    serializer of the WHATWG URL Standard. [URLStandard.parse] follows them
    on the inputs below and answers [Unmodelled] on every other input:

    - every code unit is an ASCII letter or digit or one of [+ - . : / _ ~]
      (so nothing is stripped or percent-encoded, and there are no
      credentials, query or fragment);
    - the scheme, when there is one, is http, https, ws, wss or ftp;
    - every label of the host starts with a letter and is no [xn--] label
      (so the host is a domain, which is lower-cased, and never an IPv4
      address);
    - no path segment is [.] or [..]. *)

Module URLStandard.

Inductive outcome : Type :=
| Href (href : jsstring)
| Failure
| Unmodelled.

Definition isAlnum (c : code_unit) : bool := isAlpha c || isDigit c.

Definition inFragment (c : code_unit) : bool :=
  isAlnum c || memb c (lit "+-.:/_~").

(** The scheme state: letters, digits, [+], [-] and [.]. *)
Definition isSchemeChar (c : code_unit) : bool :=
  isAlnum c || memb c (lit "+-.").

(** The text before the first [sep], and the text after it when there is one. *)
Fixpoint splitFirst (sep : code_unit) (s : jsstring) : jsstring * option jsstring :=
  match s with
  | [] => ([], None)
  | c :: r =>
      if c =? sep then ([], Some r)
      else let (a, b) := splitFirst sep r in (c :: a, b)
  end.

(** Strictly split on [sep]. *)
Fixpoint split (sep : code_unit) (s : jsstring) : list jsstring :=
  match s with
  | [] => [[]]
  | c :: r =>
      if c =? sep then [] :: split sep r
      else
        match split sep r with
        | h :: t => (c :: h) :: t
        | [] => [[c]]
        end
  end.

Fixpoint skipSlashes (s : jsstring) : jsstring :=
  match s with
  | c :: r => if c =? 47 then skipSlashes r else s
  | [] => []
  end.

(** Special schemes other than file, with their default ports. *)
Definition defaultPort (scheme : jsstring) : option N :=
  if strictEq scheme (lit "ftp") then Some 21
  else if strictEq scheme (lit "http") then Some 80
  else if strictEq scheme (lit "https") then Some 443
  else if strictEq scheme (lit "ws") then Some 80
  else if strictEq scheme (lit "wss") then Some 443
  else None.

Definition startsWith (p s : jsstring) : bool :=
  strictEq (firstn (List.length p) s) p.

(** A label the host parser keeps as it is, up to case. *)
Definition plainLabel (l : jsstring) : bool :=
  match l with
  | [] => false
  | c :: _ =>
      isAlpha c
      && forallb (fun x => isAlnum x || (x =? 45)) l
      && negb (startsWith (lit "xn--") (toLowerCase l))
  end.

Definition decimalValue (digits : jsstring) : N :=
  fold_left (fun acc d => acc * 10 + (d - 48)) digits 0.

Definition decimalString (n : N) : jsstring :=
  lit (DecimalString.NilZero.string_of_uint (N.to_uint n)).

(** The port state on the text between [:] and the path: [None] is
    failure, [Some None] the null port. *)
Definition parsePort (default : N) (digits : jsstring) : option (option N) :=
  if negb (forallb isDigit digits) then None
  else
    match digits with
    | [] => Some None
    | _ =>
        let port := decimalValue digits in
        if 65535 <? port then None
        else if port =? default then Some None
        else Some (Some port)
    end.

Definition serializePort (port : option N) : jsstring :=
  match port with
  | Some p => lit ":" ++ decimalString p
  | None => []
  end.

(** From the authority on: host, port and path, and the serialization. *)
Definition parseAfterScheme (scheme : jsstring) (default : N) (rest : jsstring) : outcome :=
  let rest := skipSlashes rest in
  let (authority, path) := splitFirst 47 rest in
  let (host, portText) := splitFirst 58 authority in
  match host with
  | [] => Failure
  | _ =>
      if negb (forallb plainLabel (split 46 host)) then Unmodelled
      else
        match parsePort default (match portText with Some t => t | None => [] end) with
        | None => Failure
        | Some port =>
            let segments := match path with Some p => split 47 p | None => [[]] end in
            if existsb (fun seg => strictEq seg (lit ".") || strictEq seg (lit "..")) segments
            then Unmodelled
            else
              Href (scheme ++ lit "://" ++ toLowerCase host ++ serializePort port
                      ++ lit "/" ++ join (lit "/") segments)
        end
  end.

Definition parse (input : jsstring) : outcome :=
  if negb (forallb inFragment input) then Unmodelled
  else
    match input with
    | [] => Failure
    | c :: _ =>
        if negb (isAlpha c) then Failure
        else
          let (scheme, rest) := splitFirst 58 input in
          if negb (forallb isSchemeChar scheme) then Failure
          else
            match rest with
            | None => Failure
            | Some rest =>
                let scheme := toLowerCase scheme in
                match defaultPort scheme with
                | Some default => parseAfterScheme scheme default rest
                | None => Unmodelled
                end
            end
    end.

(** [new URL(s).toString()], the constructor throwing on failure. It
    stands for the constructor on the inputs of the fragment only, where
    [parse] is [Href] or [Failure]; the properties below run it on such
    inputs only. *)
Definition URL_href (s : jsstring) : option jsstring :=
  match parse s with
  | Href h => Some h
  | Failure | Unmodelled => None
  end.

End URLStandard.

(** ** Test doubles for the rasterizer

    The rasterizer is a parameter of [generateQRCode]; these two stand for
    it where the dispatcher is run on a concrete request. *)

Definition rasterizerResolving (dataUri : jsstring)
  : jsstring -> QRCodeToDataURLOptions -> result jsstring :=
  fun _ _ => Return dataUri.

Definition rasterizerRejecting (reason : thrown)
  : jsstring -> QRCodeToDataURLOptions -> result jsstring :=
  fun _ _ => Throw reason.

(** ** The specification's side

    What the specification says of the validators and of the vCard
    builder, written independently of the code above. *)

(** Checks run in order, the first one that fails giving the error. *)
Fixpoint firstFailure (checks : list (bool * jsstring)) : result unit :=
  match checks with
  | [] => Return tt
  | (fails, message) :: rest =>
      if fails then Throw (ErrorObj message) else firstFailure rest
  end.

(** Empty or made of white space only. *)
Definition blank (s : jsstring) : bool := forallb isWhiteSpace s.

(** Some code unit is outside the phone character set. *)
Definition hasNonPhoneChar (s : jsstring) : bool :=
  existsb (fun c => negb (phoneChar c)) s.

(** A control character: C0 or DEL. *)
Definition isControl (c : code_unit) : bool := (c <? 32) || (c =? 127).

(** What a percent-encoded component is made of. *)
Definition uriSafe (c : code_unit) : bool := uriUnreserved c || (c =? 37).

(** The line of an optional field. *)
Definition optionalLine (label : string) (v : jsstring) : list jsstring :=
  if truthy (trim v) then [lit label ++ trim v] else [].

Definition addressParts (d : VCardData.t) : list jsstring :=
  map trim [VCardData.street d; VCardData.city d; VCardData.state d;
            VCardData.zip d; VCardData.country d].

Definition addressLine (d : VCardData.t) : list jsstring :=
  if existsb (fun part => truthy (removeSemicolons part)) (addressParts d)
  then [lit "ADR:;;" ++ join (lit ";") (addressParts d)]
  else [].

Definition mandatoryLines (d : VCardData.t) : list jsstring :=
  [ lit "BEGIN:VCARD";
    lit "VERSION:3.0";
    lit "FN:" ++ trim (VCardData.firstName d) ++ lit " " ++ trim (VCardData.lastName d);
    lit "N:" ++ trim (VCardData.lastName d) ++ lit ";"
      ++ trim (VCardData.firstName d) ++ lit ";;;" ].

Definition optionalLines (d : VCardData.t) : list jsstring :=
  optionalLine "EMAIL:" (VCardData.email d)
  ++ optionalLine "TEL;TYPE=CELL:" (VCardData.mobile d)
  ++ optionalLine "TEL;TYPE=HOME:" (VCardData.phone d)
  ++ optionalLine "TEL;TYPE=WORK:" (VCardData.workPhone d)
  ++ optionalLine "TEL;TYPE=FAX:" (VCardData.fax d)
  ++ optionalLine "ORG:" (VCardData.company d)
  ++ optionalLine "TITLE:" (VCardData.jobTitle d)
  ++ addressLine d
  ++ optionalLine "URL:" (VCardData.website d).

Definition vcardLines (d : VCardData.t) : list jsstring :=
  mandatoryLines d ++ optionalLines d ++ [lit "END:VCARD"].

(** The contact with every field trimmed. *)
Definition trimFields (d : VCardData.t) : VCardData.t :=
  {| VCardData.firstName := trim (VCardData.firstName d);
     VCardData.lastName := trim (VCardData.lastName d);
     VCardData.mobile := trim (VCardData.mobile d);
     VCardData.phone := trim (VCardData.phone d);
     VCardData.workPhone := trim (VCardData.workPhone d);
     VCardData.fax := trim (VCardData.fax d);
     VCardData.email := trim (VCardData.email d);
     VCardData.company := trim (VCardData.company d);
     VCardData.jobTitle := trim (VCardData.jobTitle d);
     VCardData.street := trim (VCardData.street d);
     VCardData.city := trim (VCardData.city d);
     VCardData.zip := trim (VCardData.zip d);
     VCardData.state := trim (VCardData.state d);
     VCardData.country := trim (VCardData.country d);
     VCardData.website := trim (VCardData.website d) |}.

(** The phone character set as the specification words it: the space
    only, where the pattern has the class escape [\s]. *)
Definition phoneCharAsSpecified (c : code_unit) : bool :=
  (c =? 43) || isDigit c || (c =? 32) || (c =? 45) || (c =? 40) || (c =? 41).

(** The optional fields of a contact. *)
Definition optionalFields (d : VCardData.t) : list jsstring :=
  [ VCardData.mobile d; VCardData.phone d; VCardData.workPhone d; VCardData.fax d;
    VCardData.email d; VCardData.company d; VCardData.jobTitle d;
    VCardData.street d; VCardData.city d; VCardData.zip d; VCardData.state d;
    VCardData.country d; VCardData.website d ].

(** The messages written in the source. *)
Definition writtenMessages : list jsstring :=
  [ lit "Please enter a URL";
    lit "Please enter a valid website URL";
    lit "Please enter both first and last name";
    lit "Please enter a valid email address";
    lit "Please enter a valid mobile";
    lit "Please enter a valid phone";
    lit "Please enter a valid work phone";
    lit "Please enter a valid fax";
    lit "Please enter an email address";
    lit "Please enter a phone number";
    lit "Please enter a valid phone number";
    lit "Please enter some text";
    lit "Please enter a network name (SSID)";
    lit "Please enter a network password";
    lit "Invalid QR code type" ].

(** The kind tags of the dispatcher. *)
Definition kindTags : list jsstring :=
  [lit "url"; lit "vcard"; lit "email"; lit "sms"; lit "text"; lit "wifi"].

Definition isSurrogate (c : code_unit) : bool :=
  isLeadSurrogate c || isTrailSurrogate c.

(** ** Sample requests *)

Definition contactOf (firstName lastName mobile workPhone fax email company : jsstring)
  : VCardData.t :=
  {| VCardData.firstName := firstName; VCardData.lastName := lastName;
     VCardData.mobile := mobile; VCardData.phone := lit "";
     VCardData.workPhone := workPhone; VCardData.fax := fax;
     VCardData.email := email; VCardData.company := company;
     VCardData.jobTitle := lit ""; VCardData.street := lit "";
     VCardData.city := lit ""; VCardData.zip := lit ""; VCardData.state := lit "";
     VCardData.country := lit ""; VCardData.website := lit "" |}.

Definition janeDoe : VCardData.t :=
  contactOf (lit "Jane") (lit "Doe") (lit "+1 555-123-4567")
    (lit "") (lit "") (lit "") (lit "").

Definition noEmail : EmailData.t :=
  {| EmailData.email := lit ""; EmailData.subject := lit ""; EmailData.body := lit "" |}.

Definition noSMS : SMSData.t :=
  {| SMSData.phone := lit ""; SMSData.message := lit "" |}.

Definition noWiFi : WiFiData.t :=
  {| WiFiData.ssid := lit ""; WiFiData.password := lit "";
     WiFiData.encryption := WiFiData.WPA; WiFiData.hidden := false |}.

(** The bundle of a plain-text request. *)
Definition textRequest (t : jsstring) : QRCodeParams :=
  {| url := lit ""; vcardData := contactOf [] [] [] [] [] [] [];
     emailData := noEmail; smsData := noSMS; text := t; wifiData := noWiFi |}.

Definition homeWiFi : WiFiData.t :=
  {| WiFiData.ssid := lit "Home"; WiFiData.password := lit "";
     WiFiData.encryption := WiFiData.nopass; WiFiData.hidden := false |}.

(** ** Further notions used by the properties *)

(** No lone surrogate: [String.prototype.isWellFormed]. *)
Fixpoint isWellFormed (s : jsstring) : bool :=
  match s with
  | [] => true
  | c :: r =>
      if isLeadSurrogate c then
        match r with
        | d :: r' => isTrailSurrogate d && isWellFormed r'
        | [] => false
        end
      else if isTrailSurrogate c then false
      else isWellFormed r
  end.

Definition hasNoLineFeed (s : jsstring) : bool :=
  forallb (fun c => negb (c =? LF)) s.

(** Every field of a contact. *)
Definition allFields (d : VCardData.t) : list jsstring :=
  VCardData.firstName d :: VCardData.lastName d :: optionalFields d.

(** The message of the [catch] clause. *)
Definition genericMessage : jsstring :=
  lit "Failed to generate QR code. Please try again.".

(** * Properties *)

(** Boolean tests as propositions, for [lia]. *)
Ltac bool_to_prop :=
  repeat rewrite ?orb_true_iff, ?andb_true_iff, ?negb_true_iff,
    ?orb_false_iff, ?andb_false_iff, ?negb_false_iff,
    ?N.leb_le, ?N.ltb_lt, ?N.eqb_eq, ?N.eqb_neq, ?N.leb_gt, ?N.ltb_ge in *.

(** Membership in a list of literals, and inclusion of the messages of
    a list of checks in the written ones. *)
Ltac written_message :=
  cbn [In]; repeat first [left; reflexivity | right].

Ltac written_checks :=
  intros m M; cbn [map snd In] in M;
  repeat (destruct M as [<- | M]; [unfold writtenMessages; written_message|]);
  destruct M.

(** ** Strings *)

Lemma truthy_false (s : jsstring) : truthy s = false <-> s = [].
Proof. destruct s; simpl; split; congruence. Qed.

Lemma truthy_true (s : jsstring) : truthy s = true <-> s <> [].
Proof. destruct s; simpl; split; congruence. Qed.

Lemma truthy_app (a b : jsstring) : truthy (a ++ b) = truthy a || truthy b.
Proof. destruct a; reflexivity. Qed.

Lemma orElse_empty (s : jsstring) : orElse s (lit "") = s.
Proof. destruct s; reflexivity. Qed.

Lemma strictEq_false (a b : jsstring) : strictEq a b = false <-> a <> b.
Proof. unfold strictEq. destruct (jsstring_eq_dec a b); split; congruence. Qed.

Lemma trimStart_blank (s : jsstring) : trimStart s = [] <-> blank s = true.
Proof.
  unfold blank. induction s as [|c r IH]; simpl.
  - tauto.
  - destruct (isWhiteSpace c); simpl; [exact IH | split; discriminate].
Qed.

Lemma trimStart_split (s : jsstring) :
  exists w, s = w ++ trimStart s /\ blank w = true.
Proof.
  induction s as [|c r [w [E B]]]; simpl.
  - exists []. auto.
  - destruct (isWhiteSpace c) eqn:W.
    + exists (c :: w). simpl. rewrite W, <- E. auto.
    + exists []. auto.
Qed.

Lemma trimStart_fixed (s : jsstring) :
  match s with [] => True | c :: _ => isWhiteSpace c = false end ->
  trimStart s = s.
Proof. destruct s as [|c r]; simpl; [auto | intros ->; auto]. Qed.

Lemma trimStart_head (s : jsstring) :
  match trimStart s with [] => True | c :: _ => isWhiteSpace c = false end.
Proof.
  induction s as [|c r IH]; simpl; [exact I|].
  destruct (isWhiteSpace c) eqn:W; [exact IH | exact W].
Qed.

Lemma trimStart_idempotent (s : jsstring) : trimStart (trimStart s) = trimStart s.
Proof. apply trimStart_fixed, trimStart_head. Qed.

Lemma blank_app (a b : jsstring) : blank (a ++ b) = blank a && blank b.
Proof. apply forallb_app. Qed.

Lemma blank_rev (s : jsstring) : blank (rev s) = blank s.
Proof.
  unfold blank. induction s as [|c r IH]; simpl; [reflexivity|].
  rewrite forallb_app, IH. simpl. rewrite andb_true_r. apply andb_comm.
Qed.

Lemma trimEnd_split (s : jsstring) :
  exists w, s = trimEnd s ++ w /\ blank w = true.
Proof.
  unfold trimEnd. destruct (trimStart_split (rev s)) as [w [E B]].
  exists (rev w). split.
  - rewrite <- rev_app_distr, <- E. symmetry. apply rev_involutive.
  - rewrite blank_rev. exact B.
Qed.

Lemma trimEnd_blank (s : jsstring) : trimEnd s = [] <-> blank s = true.
Proof.
  unfold trimEnd. rewrite <- blank_rev, <- trimStart_blank.
  split; intros H.
  - apply (f_equal (@rev _)) in H. rewrite rev_involutive in H. exact H.
  - rewrite H. reflexivity.
Qed.

(** [trimEnd] keeps a string that starts with no white space starting so. *)
Lemma trimEnd_head (s : jsstring) :
  match s with [] => True | c :: _ => isWhiteSpace c = false end ->
  match trimEnd s with [] => True | c :: _ => isWhiteSpace c = false end.
Proof.
  intros H. destruct (trimEnd_split s) as [w [E _]].
  destruct (trimEnd s) as [|c r]; [exact I|].
  rewrite E in H. exact H.
Qed.

Lemma trimEnd_idempotent (s : jsstring) : trimEnd (trimEnd s) = trimEnd s.
Proof.
  unfold trimEnd. rewrite rev_involutive, trimStart_idempotent. reflexivity.
Qed.

Lemma trim_blank (s : jsstring) : truthy (trim s) = negb (blank s).
Proof.
  destruct (blank s) eqn:B; simpl.
  - apply truthy_false. unfold trim. apply trimEnd_blank.
    apply trimStart_blank in B. rewrite B. reflexivity.
  - apply truthy_true. unfold trim. intros H. apply trimEnd_blank in H.
    destruct (trimStart_split s) as [w [E Bw]].
    rewrite E, blank_app, Bw, H in B. discriminate.
Qed.

Lemma trim_idempotent (s : jsstring) : trim (trim s) = trim s.
Proof.
  unfold trim at 1.
  rewrite (trimStart_fixed (trim s)).
  - unfold trim. apply trimEnd_idempotent.
  - unfold trim. apply trimEnd_head, trimStart_head.
Qed.

Lemma trimStart_forallb (p : code_unit -> bool) (s : jsstring) :
  forallb p s = true -> forallb p (trimStart s) = true.
Proof.
  intros H. destruct (trimStart_split s) as [w [E _]].
  rewrite E, forallb_app in H. apply andb_true_iff in H. tauto.
Qed.

Lemma trimEnd_forallb (p : code_unit -> bool) (s : jsstring) :
  forallb p s = true -> forallb p (trimEnd s) = true.
Proof.
  intros H. destruct (trimEnd_split s) as [w [E _]].
  rewrite E, forallb_app in H. apply andb_true_iff in H. tauto.
Qed.

Lemma trim_forallb (p : code_unit -> bool) (s : jsstring) :
  forallb p s = true -> forallb p (trim s) = true.
Proof. intros H. apply trimEnd_forallb, trimStart_forallb, H. Qed.

(** A string without white space is its own trimming. *)
Lemma trim_no_space (s : jsstring) :
  forallb (fun c => negb (isWhiteSpace c)) s = true -> trim s = s.
Proof.
  intros H. unfold trim.
  assert (S : trimStart s = s).
  { apply trimStart_fixed. destruct s as [|c r]; [exact I|].
    simpl in H. apply andb_true_iff in H. destruct H as [H _].
    apply negb_true_iff in H. exact H. }
  rewrite S. unfold trimEnd.
  rewrite trimStart_fixed; [apply rev_involutive|].
  destruct (rev s) as [|c r] eqn:R; [exact I|].
  assert (I : In c s) by (apply in_rev; rewrite R; left; reflexivity).
  rewrite forallb_forall in H. apply H in I.
  apply negb_true_iff in I. exact I.
Qed.

(** ** Regular expressions: the matcher decides the language *)

Lemma nullable_lang (r : regex) : nullable r = true <-> lang r [].
Proof.
  induction r as [| |p|a IHa b IHb|a IHa b IHb|a IHa]; simpl.
  - split; [discriminate | tauto].
  - tauto.
  - split; [discriminate | intros [c [E _]]; discriminate].
  - rewrite andb_true_iff, IHa, IHb. split.
    + intros [Ha Hb]. exists [], []. auto.
    + intros [s1 [s2 [E [Ha Hb]]]]. symmetry in E.
      apply app_eq_nil in E. destruct E; subst. auto.
  - rewrite orb_true_iff, IHa, IHb. tauto.
  - split; [intros _; constructor | reflexivity].
Qed.

(** A non-empty word of [L*] starts with a non-empty word of [L]. *)
Lemma star_cons (L : jsstring -> Prop) (c : code_unit) (s : jsstring) :
  star L (c :: s) ->
  exists s1 s2, s = s1 ++ s2 /\ L (c :: s1) /\ star L s2.
Proof.
  intros H. remember (c :: s) as w eqn:E. revert c s E.
  induction H as [|s1 s2 H1 H2 IH]; intros c s E; [discriminate|].
  destruct s1 as [|c1 s1]; simpl in E.
  - apply IH. exact E.
  - injection E as -> <-. exists s1, s2. auto.
Qed.

Lemma deriv_lang (r : regex) (c : code_unit) (s : jsstring) :
  lang (deriv c r) s <-> lang r (c :: s).
Proof.
  revert s.
  induction r as [| |p|a IHa b IHb|a IHa b IHb|a IHa]; intros s; simpl.
  - tauto.
  - split; [tauto | discriminate].
  - destruct (p c) eqn:P; simpl; split.
    + intros ->. exists c. auto.
    + intros [c' [E _]]. injection E as _ ->. reflexivity.
    + tauto.
    + intros [c' [E P']]. injection E as <- _. congruence.
  - assert (Left : (exists s1 s2, s = s1 ++ s2 /\ lang (deriv c a) s1 /\ lang b s2)
                   <-> (exists s1 s2, c :: s = (c :: s1) ++ s2 /\ lang a (c :: s1) /\ lang b s2)).
    { split; intros [s1 [s2 [E [Ha Hb]]]]; exists s1, s2.
      - apply IHa in Ha. subst. auto.
      - apply IHa in Ha. simpl in E. injection E as ->. auto. }
    destruct (nullable a) eqn:Na; simpl.
    + split.
      * intros [H | H].
        -- apply Left in H. destruct H as [s1 [s2 [E H]]]. exists (c :: s1), s2. auto.
        -- exists [], (c :: s). apply nullable_lang in Na. apply IHb in H. auto.
      * intros [s1 [s2 [E [Ha Hb]]]]. destruct s1 as [|c1 s1]; simpl in E.
        -- right. apply IHb. subst. exact Hb.
        -- left. apply Left. injection E as <- ->. exists s1, s2. auto.
    + rewrite Left. split.
      * intros [s1 [s2 [E H]]]. exists (c :: s1), s2. auto.
      * intros [s1 [s2 [E [Ha Hb]]]]. destruct s1 as [|c1 s1]; simpl in E.
        -- apply nullable_lang in Ha. congruence.
        -- injection E as <- ->. exists s1, s2. auto.
  - rewrite IHa, IHb. tauto.
  - split.
    + intros [s1 [s2 [E [Ha Hs]]]]. apply IHa in Ha. subst.
      apply (star_app _ (c :: s1) s2); assumption.
    + intros H. apply star_cons in H. destruct H as [s1 [s2 [E [Ha Hs]]]].
      exists s1, s2. apply IHa in Ha. auto.
Qed.

Lemma matches_lang (r : regex) (s : jsstring) : matches r s = true <-> lang r s.
Proof.
  revert r. induction s as [|c s IH]; intros r; simpl.
  - apply nullable_lang.
  - rewrite IH. apply deriv_lang.
Qed.

(** A word of the language is made of code units of the alphabet. *)
Lemma lang_alphabet (r : regex) (s : jsstring) :
  lang r s -> forallb (alphabet r) s = true.
Proof.
  revert s.
  induction r as [| |p|a IHa b IHb|a IHa b IHb|a IHa]; intros s; simpl.
  - tauto.
  - intros ->. reflexivity.
  - intros [c [-> P]]. simpl. rewrite P. reflexivity.
  - intros [s1 [s2 [-> [Ha Hb]]]]. rewrite forallb_app.
    apply IHa in Ha. apply IHb in Hb. rewrite forallb_forall in *.
    apply andb_true_iff. split; apply forallb_forall; intros x X.
    + rewrite (Ha x X). reflexivity.
    + rewrite (Hb x X). apply orb_true_r.
  - intros [H | H]; [apply IHa in H | apply IHb in H];
      rewrite forallb_forall in *; intros x X; rewrite (H x X);
      [reflexivity | apply orb_true_r].
  - intros H. induction H as [|s1 s2 H1 _ IH]; [reflexivity|].
    rewrite forallb_app, (IHa _ H1), IH. reflexivity.
Qed.

Lemma star_class (p : code_unit -> bool) (s : jsstring) :
  forallb p s = true -> star (lang (RClass p)) s.
Proof.
  induction s as [|c s IH]; simpl; intros H; [constructor|].
  apply andb_true_iff in H. destruct H as [P H].
  apply (star_app _ [c] s); [exists c; auto | auto].
Qed.

(** [[...]+] matches the non-empty strings made of the class. *)
Lemma matches_plus_class (p : code_unit -> bool) (s : jsstring) :
  matches (RPlus (RClass p)) s = truthy s && forallb p s.
Proof.
  apply eq_true_iff_eq. rewrite matches_lang, andb_true_iff, truthy_true. split.
  - intros H. split.
    + destruct H as [s1 [s2 [-> [[c [-> _]] _]]]]. discriminate.
    + apply lang_alphabet in H. simpl in H. rewrite forallb_forall in *.
      intros c C. specialize (H c C). rewrite orb_diag in H. exact H.
  - intros [N H]. destruct s as [|c s]; [congruence|]. simpl in H.
    apply andb_true_iff in H. destruct H as [P H].
    exists [c], s. repeat split; [exists c; auto | apply star_class, H].
Qed.

(** A phone field is refused exactly when it holds a code unit outside
    the phone character set. *)
Lemma phone_refused (v : jsstring) :
  truthy v && negb (matches phonePattern v) = hasNonPhoneChar v.
Proof.
  unfold phonePattern, hasNonPhoneChar. rewrite matches_plus_class.
  destruct v as [|c v]; [reflexivity|]. cbn [truthy andb].
  induction (c :: v) as [|x l IH]; simpl; [reflexivity|].
  destruct (phoneChar x); simpl; [exact IH | reflexivity].
Qed.

Lemma phone_accepted (v : jsstring) :
  matches phonePattern v = true -> forallb phoneChar v = true.
Proof.
  unfold phonePattern. rewrite matches_plus_class, andb_true_iff. tauto.
Qed.

(** An accepted e-mail address holds no white space. *)
Lemma email_no_space (v : jsstring) :
  matches emailPattern v = true ->
  forallb (fun c => negb (isWhiteSpace c)) v = true.
Proof.
  intros H. apply matches_lang, lang_alphabet in H.
  rewrite forallb_forall in *. intros c C. specialize (H c C).
  unfold emailPattern, RPlus, RChar in H. cbn [alphabet] in H.
  unfold notSpaceNorAt in H.
  destruct (isWhiteSpace c) eqn:W; [|reflexivity].
  assert (E1 : (64 =? c) = false)
    by (apply N.eqb_neq; intros <-; vm_compute in W; discriminate).
  assert (E2 : (46 =? c) = false)
    by (apply N.eqb_neq; intros <-; vm_compute in W; discriminate).
  rewrite E1, E2 in H. discriminate.
Qed.

(** ** Percent-encoding *)

Lemma uriUnreserved_range (c : code_unit) :
  uriUnreserved c = true -> 33 <= c <= 126 /\ c <> 37 /\ c <> 58.
Proof.
  unfold uriUnreserved, isAlpha, isUpper, isLower, isDigit, memb.
  change (lit "-_.!~*'()") with [45; 95; 46; 33; 126; 42; 39; 40; 41].
  cbn [existsb]. bool_to_prop. lia.
Qed.

Lemma uriSafe_range (c : code_unit) :
  uriSafe c = true -> 33 <= c <= 126 /\ c <> 58.
Proof.
  unfold uriSafe. rewrite orb_true_iff, N.eqb_eq.
  intros [H | ->]; [apply uriUnreserved_range in H|]; lia.
Qed.

Lemma uriSafe_no_space (c : code_unit) : uriSafe c = true -> isWhiteSpace c = false.
Proof.
  intros H. apply uriSafe_range in H. unfold isWhiteSpace. bool_to_prop. lia.
Qed.

Lemma uriSafe_no_control (c : code_unit) : uriSafe c = true -> isControl c = false.
Proof.
  intros H. apply uriSafe_range in H. unfold isControl. bool_to_prop. lia.
Qed.

Lemma hexDigit_safe (n : N) : n < 16 -> uriSafe (hexDigit n) = true.
Proof.
  intros H. unfold hexDigit, uriSafe, uriUnreserved.
  destruct (n <? 10) eqn:D.
  - assert (E : isDigit (48 + n) = true)
      by (unfold isDigit; bool_to_prop; lia).
    rewrite E, orb_true_r. reflexivity.
  - assert (E : isUpper (55 + n) = true)
      by (unfold isUpper; bool_to_prop; lia).
    unfold isAlpha. rewrite E. reflexivity.
Qed.

Lemma percentEscape_safe (octet : N) : forallb uriSafe (percentEscape octet) = true.
Proof.
  unfold percentEscape. cbn [forallb].
  rewrite !hexDigit_safe by (apply N.mod_lt; discriminate). reflexivity.
Qed.

Lemma percentEscapes_safe (octets : list N) :
  forallb uriSafe (flat_map percentEscape octets) = true.
Proof.
  induction octets as [|o l IH]; [reflexivity|].
  cbn [flat_map]. rewrite forallb_app, percentEscape_safe, IH. reflexivity.
Qed.

Lemma percentEscapes_truthy (cp : N) : truthy (flat_map percentEscape (utf8 cp)) = true.
Proof.
  unfold utf8.
  destruct (cp <? 128); [reflexivity|].
  destruct (cp <? 2048); [reflexivity|].
  destruct (cp <? 65536); reflexivity.
Qed.

(** Induction on a list, two elements at a time. *)
Lemma list_pair_ind {A} (P : list A -> Prop) :
  P [] -> (forall a, P [a]) ->
  (forall a b l, P l -> P (b :: l) -> P (a :: b :: l)) ->
  forall l, P l.
Proof.
  intros H0 H1 H2 l.
  assert (B : P l /\ forall a, P (a :: l)).
  { induction l as [|b l [IH1 IH2]]; split; auto. }
  apply B.
Qed.

Lemma encodeURIComponent_cons (c : code_unit) (r : jsstring) :
  encodeURIComponent (c :: r) =
  if uriUnreserved c then
    e <- encodeURIComponent r ;; Return (c :: e)
  else if isLeadSurrogate c then
    match r with
    | d :: r' =>
        if isTrailSurrogate d then
          e <- encodeURIComponent r' ;;
          Return (flat_map percentEscape (utf8 (surrogatePair c d)) ++ e)
        else Throw URIErrorObj
    | [] => Throw URIErrorObj
    end
  else if isTrailSurrogate c then Throw URIErrorObj
  else
    e <- encodeURIComponent r ;;
    Return (flat_map percentEscape (utf8 c) ++ e).
Proof. reflexivity. Qed.

(** When the encoding succeeds, it is made of unreserved characters and
    percent signs, and it is empty only for the empty string. *)
Lemma encodeURIComponent_safe (s e : jsstring) :
  encodeURIComponent s = Return e ->
  forallb uriSafe e = true /\ truthy e = truthy s.
Proof.
  revert e. induction s as [|a|a b l IHl IHb] using list_pair_ind; intros e.
  - simpl. intros [= <-]. auto.
  - simpl. destruct (uriUnreserved a) eqn:U.
    + intros [= <-]. simpl. unfold uriSafe. rewrite U. auto.
    + destruct (isLeadSurrogate a); [discriminate|].
      destruct (isTrailSurrogate a); [discriminate|].
      intros [= <-]. rewrite app_nil_r, percentEscapes_safe, percentEscapes_truthy. auto.
  - rewrite encodeURIComponent_cons.
    destruct (uriUnreserved a) eqn:U.
    + destruct (encodeURIComponent (b :: l)) as [e'|]; cbn [bind]; [|discriminate].
      intros [= <-]. destruct (IHb e' eq_refl) as [S _].
      cbn [forallb truthy]. unfold uriSafe at 1. rewrite U, S. auto.
    + destruct (isLeadSurrogate a).
      * destruct (isTrailSurrogate b); [|discriminate].
        destruct (encodeURIComponent l) as [e'|]; cbn [bind]; [|discriminate].
        intros [= <-]. destruct (IHl e' eq_refl) as [S _].
        rewrite forallb_app, percentEscapes_safe, S, truthy_app, percentEscapes_truthy.
        auto.
      * destruct (isTrailSurrogate a); [discriminate|].
        destruct (encodeURIComponent (b :: l)) as [e'|]; cbn [bind]; [|discriminate].
        intros [= <-]. destruct (IHb e' eq_refl) as [S _].
        rewrite forallb_app, percentEscapes_safe, S, truthy_app, percentEscapes_truthy.
        auto.
Qed.

(** [encodeURIComponent] throws nothing but a [URIError]. *)
Lemma encodeURIComponent_throws (s : jsstring) (e : thrown) :
  encodeURIComponent s = Throw e -> e = URIErrorObj.
Proof.
  revert e. induction s as [|a|a b l IHl IHb] using list_pair_ind; intros e.
  - discriminate.
  - simpl. destruct (uriUnreserved a); [discriminate|].
    destruct (isLeadSurrogate a); [congruence|].
    destruct (isTrailSurrogate a); [congruence | discriminate].
  - rewrite encodeURIComponent_cons.
    destruct (uriUnreserved a).
    + destruct (encodeURIComponent (b :: l)) as [e'|e']; cbn [bind]; [discriminate|].
      intros [= <-]. apply IHb. reflexivity.
    + destruct (isLeadSurrogate a).
      * destruct (isTrailSurrogate b); [|congruence].
        destruct (encodeURIComponent l) as [e'|e']; cbn [bind]; [discriminate|].
        intros [= <-]. apply IHl. reflexivity.
      * destruct (isTrailSurrogate a); [congruence|].
        destruct (encodeURIComponent (b :: l)) as [e'|e']; cbn [bind]; [discriminate|].
        intros [= <-]. apply IHb. reflexivity.
Qed.

(** ** The validators *)

Lemma phoneFields_checks (d : VCardData.t) :
  forEach phoneFields (checkPhoneField d) =
  firstFailure
    [ (hasNonPhoneChar (VCardData.mobile d), lit "Please enter a valid mobile");
      (hasNonPhoneChar (VCardData.phone d), lit "Please enter a valid phone");
      (hasNonPhoneChar (VCardData.workPhone d), lit "Please enter a valid work phone");
      (hasNonPhoneChar (VCardData.fax d), lit "Please enter a valid fax") ].
Proof.
  unfold phoneFields. cbn [forEach firstFailure]. unfold checkPhoneField.
  change (VCardData.get d (lit "mobile")) with (Some (VCardData.mobile d)).
  change (VCardData.get d (lit "phone")) with (Some (VCardData.phone d)).
  change (VCardData.get d (lit "workPhone")) with (Some (VCardData.workPhone d)).
  change (VCardData.get d (lit "fax")) with (Some (VCardData.fax d)).
  cbv beta iota. rewrite !phone_refused.
  destruct (hasNonPhoneChar (VCardData.mobile d)); [reflexivity|].
  destruct (hasNonPhoneChar (VCardData.phone d)); [reflexivity|].
  destruct (hasNonPhoneChar (VCardData.workPhone d)); [reflexivity|].
  destruct (hasNonPhoneChar (VCardData.fax d)); reflexivity.
Qed.

Lemma validateVCardData_checks (d : VCardData.t) :
  validateVCardData d =
  firstFailure
    [ (blank (VCardData.firstName d) || blank (VCardData.lastName d),
       lit "Please enter both first and last name");
      (truthy (VCardData.email d) && negb (matches emailPattern (VCardData.email d)),
       lit "Please enter a valid email address");
      (hasNonPhoneChar (VCardData.mobile d), lit "Please enter a valid mobile");
      (hasNonPhoneChar (VCardData.phone d), lit "Please enter a valid phone");
      (hasNonPhoneChar (VCardData.workPhone d), lit "Please enter a valid work phone");
      (hasNonPhoneChar (VCardData.fax d), lit "Please enter a valid fax") ].
Proof.
  unfold validateVCardData. rewrite phoneFields_checks, !trim_blank, !negb_involutive.
  cbn [firstFailure]. unfold throwIf.
  destruct (blank (VCardData.firstName d) || blank (VCardData.lastName d));
    [reflexivity|].
  destruct (truthy (VCardData.email d) && negb (matches emailPattern (VCardData.email d)));
    reflexivity.
Qed.

Lemma validateEmailData_checks (d : EmailData.t) :
  validateEmailData d =
  firstFailure
    [ (blank (EmailData.email d), lit "Please enter an email address");
      (negb (matches emailPattern (EmailData.email d)),
       lit "Please enter a valid email address") ].
Proof.
  unfold validateEmailData. rewrite trim_blank, negb_involutive.
  cbn [firstFailure]. unfold throwIf.
  destruct (blank (EmailData.email d)); [reflexivity|].
  destruct (negb (matches emailPattern (EmailData.email d))); reflexivity.
Qed.

Lemma validateSMSData_checks (d : SMSData.t) :
  validateSMSData d =
  firstFailure
    [ (blank (SMSData.phone d), lit "Please enter a phone number");
      (negb (matches phonePattern (SMSData.phone d)),
       lit "Please enter a valid phone number") ].
Proof.
  unfold validateSMSData. rewrite trim_blank, negb_involutive.
  cbn [firstFailure]. unfold throwIf.
  destruct (blank (SMSData.phone d)); [reflexivity|].
  destruct (negb (matches phonePattern (SMSData.phone d))); reflexivity.
Qed.

Lemma validateText_checks (t : jsstring) :
  validateText t = firstFailure [(blank t, lit "Please enter some text")].
Proof.
  unfold validateText. rewrite trim_blank, negb_involutive.
  cbn [firstFailure]. unfold throwIf. destruct (blank t); reflexivity.
Qed.

Lemma validateWiFiData_checks (d : WiFiData.t) :
  validateWiFiData d =
  firstFailure
    [ (blank (WiFiData.ssid d), lit "Please enter a network name (SSID)");
      (match WiFiData.encryption d with WiFiData.nopass => false | _ => true end
       && blank (WiFiData.password d),
       lit "Please enter a network password") ].
Proof.
  unfold validateWiFiData. rewrite !trim_blank, !negb_involutive.
  cbn [firstFailure]. unfold throwIf.
  destruct (blank (WiFiData.ssid d)); [reflexivity|].
  destruct (WiFiData.encryption d); cbn;
    destruct (blank (WiFiData.password d)); reflexivity.
Qed.

Lemma validateUrl_checks (URL_href : jsstring -> option jsstring) (u : jsstring) :
  (validateUrl URL_href u ;;; Return tt) =
  firstFailure
    [ (blank u, lit "Please enter a URL");
      (match URL_href (trim u), URL_href (lit "https://" ++ trim u) with
       | None, None => true
       | _, _ => false
       end,
       lit "Please enter a valid website URL") ].
Proof.
  unfold validateUrl. rewrite trim_blank, negb_involutive. cbn [firstFailure].
  destruct (blank u); [reflexivity|].
  destruct (URL_href (trim u)); [reflexivity|].
  destruct (URL_href (lit "https://" ++ trim u)); reflexivity.
Qed.

Lemma firstFailure_throws (checks : list (bool * jsstring)) (e : thrown) :
  firstFailure checks = Throw e ->
  exists message, e = ErrorObj message /\ In message (map snd checks).
Proof.
  induction checks as [|[fails message] rest IH]; simpl; [discriminate|].
  destruct fails.
  - intros [= <-]. exists message. auto.
  - intros H. destruct (IH H) as [m [E I]]. exists m. auto.
Qed.

(** What a validator throws is an [Error] with one of the written
    messages. *)
Lemma checks_throw_written (checks : list (bool * jsstring)) (e : thrown) :
  incl (map snd checks) writtenMessages ->
  firstFailure checks = Throw e ->
  exists message, e = ErrorObj message /\ In message writtenMessages.
Proof.
  intros I H. destruct (firstFailure_throws _ _ H) as [m [E M]].
  exists m. auto.
Qed.

Lemma validateUrl_throws (URL_href : jsstring -> option jsstring) (u : jsstring) (e : thrown) :
  validateUrl URL_href u = Throw e ->
  exists message, e = ErrorObj message /\ In message writtenMessages.
Proof.
  unfold validateUrl. destruct (negb (truthy (trim u))).
  { intros [= <-]. eexists. split; [reflexivity|]. unfold writtenMessages. written_message. }
  destruct (URL_href (trim u)); [discriminate|].
  destruct (URL_href (lit "https://" ++ trim u)); [discriminate|].
  intros [= <-]. eexists. split; [reflexivity|]. unfold writtenMessages. written_message.
Qed.

(** The [switch] throws an [Error] with one of the written messages, or
    the [URIError] of [encodeURIComponent]. *)
Lemma selectData_throws_written (URL_href : jsstring -> option jsstring)
  (type : jsstring) (params : QRCodeParams) (e : thrown) :
  selectData URL_href type params = Throw e ->
  e = URIErrorObj
  \/ exists message, e = ErrorObj message /\ In message writtenMessages.
Proof.
  unfold selectData.
  destruct (strictEq type (lit "url")); [intros H; right; exact (validateUrl_throws _ _ _ H)|].
  destruct (strictEq type (lit "vcard")).
  { unfold generateVCardString. rewrite validateVCardData_checks.
    destruct (firstFailure _) eqn:F; cbn [bind]; [discriminate|].
    intros [= <-]. right. revert F. apply checks_throw_written. written_checks. }
  destruct (strictEq type (lit "email")).
  { unfold generateEmailString. rewrite validateEmailData_checks.
    destruct (firstFailure _) eqn:F; cbn [bind].
    - destruct (encodeURIComponent (orElse (EmailData.subject _) _)) eqn:S; cbn [bind].
      + destruct (encodeURIComponent (orElse (EmailData.body _) _)) eqn:B; cbn [bind];
          [discriminate|].
        intros [= <-]. left. exact (encodeURIComponent_throws _ _ B).
      + intros [= <-]. left. exact (encodeURIComponent_throws _ _ S).
    - intros [= <-]. right. revert F. apply checks_throw_written. written_checks. }
  destruct (strictEq type (lit "sms")).
  { unfold generateSMSString. rewrite validateSMSData_checks.
    destruct (firstFailure _) eqn:F; cbn [bind].
    - destruct (encodeURIComponent _) eqn:M; cbn [bind]; [discriminate|].
      intros [= <-]. left. exact (encodeURIComponent_throws _ _ M).
    - intros [= <-]. right. revert F. apply checks_throw_written. written_checks. }
  destruct (strictEq type (lit "text")).
  { rewrite validateText_checks.
    destruct (firstFailure _) eqn:F; cbn [bind]; [discriminate|].
    intros [= <-]. right. revert F. apply checks_throw_written. written_checks. }
  destruct (strictEq type (lit "wifi")).
  { unfold generateWiFiString. rewrite validateWiFiData_checks.
    destruct (firstFailure _) eqn:F; cbn [bind]; [discriminate|].
    intros [= <-]. right. revert F. apply checks_throw_written. written_checks. }
  intros [= <-]. right. eexists. split; [reflexivity|].
  unfold writtenMessages. written_message.
Qed.

(** The [switch] throws instances of [Error] only. *)
Lemma selectData_throws (URL_href : jsstring -> option jsstring)
  (type : jsstring) (params : QRCodeParams) (e : thrown) :
  selectData URL_href type params = Throw e -> instanceofError e = true.
Proof.
  intros H. destruct (selectData_throws_written _ _ _ _ H) as [-> | [m [-> _]]];
    reflexivity.
Qed.

(** ** The dispatcher *)

(** C9. For every kind tag other than url, vcard, email, sms, text and
    wifi, [generateQRCode] fails with the message "Invalid QR code type"
    and makes no call to the rasterizer: the list of calls is unchanged,
    whatever the rasterizer and the URL parser are. *)
Theorem unknown_kind_never_rasterized
  (URL_href : jsstring -> option jsstring)
  (toDataURL : jsstring -> QRCodeToDataURLOptions -> result jsstring)
  (type : jsstring) (params : QRCodeParams)
  (calls : list (jsstring * QRCodeToDataURLOptions)) :
  ~ In type kindTags ->
  generateQRCode URL_href toDataURL type params calls =
  (Throw (ErrorObj (lit "Invalid QR code type")), calls).
Proof.
  intros H. unfold generateQRCode, selectData.
  assert (N : forall k, In k kindTags -> strictEq type k = false).
  { intros k K. apply strictEq_false. intros ->. exact (H K). }
  unfold kindTags in N. cbn [In] in N.
  rewrite !N by tauto. reflexivity.
Qed.

Lemma unknown_kind_never_rasterized_witness :
  ~ In (lit "pdf") kindTags /\
  generateQRCode URLStandard.URL_href (rasterizerResolving (lit "data:,"))
    (lit "pdf") (textRequest (lit "hello")) [] =
  (Throw (ErrorObj (lit "Invalid QR code type")), []).
Proof.
  assert (H : ~ In (lit "pdf") kindTags).
  { vm_compute. intros [E|[E|[E|[E|[E|[E|[]]]]]]]; discriminate E. }
  split; [exact H|].
  exact (unknown_kind_never_rasterized _ _ _ _ _ H).
Defined.

(** The dispatcher in full: a failure of the [switch] goes to the caller
    as it is and without a call to the rasterizer; otherwise the
    rasterizer is called once, and what it rejects with goes through the
    [catch] clause. *)
Lemma generateQRCode_outcome
  (URL_href : jsstring -> option jsstring)
  (toDataURL : jsstring -> QRCodeToDataURLOptions -> result jsstring)
  (type : jsstring) (params : QRCodeParams)
  (calls : list (jsstring * QRCodeToDataURLOptions)) :
  generateQRCode URL_href toDataURL type params calls =
  match selectData URL_href type params with
  | Throw e => (Throw e, calls)
  | Return data =>
      (match toDataURL data qrOptions with
       | Return dataUri => Return dataUri
       | Throw e =>
           Throw (if instanceofError e then e
                  else ErrorObj (lit "Failed to generate QR code. Please try again."))
       end,
       calls ++ [(data, qrOptions)])
  end.
Proof.
  unfold generateQRCode.
  destruct (selectData URL_href type params) as [data|e] eqn:S; cbn [fst snd].
  - destruct (toDataURL data qrOptions); reflexivity.
  - unfold normalize. rewrite (selectData_throws _ _ _ _ S). reflexivity.
Qed.

(** C4, as the code has it. A validation failure reaches the caller as
    it was thrown, an [Error] with one of the messages written in the
    source; so does the [URIError] of a failed encoding, and so does a
    failure of the rasterizer that is an instance of [Error], with its own
    message. The message "Failed to generate QR code. Please try again."
    replaces only what was thrown without being an instance of [Error]. *)
Theorem errors_reach_the_caller
  (URL_href : jsstring -> option jsstring)
  (toDataURL : jsstring -> QRCodeToDataURLOptions -> result jsstring)
  (type : jsstring) (params : QRCodeParams)
  (calls : list (jsstring * QRCodeToDataURLOptions)) :
  fst (generateQRCode URL_href toDataURL type params calls) =
    match selectData URL_href type params with
    | Throw e => Throw e
    | Return data =>
        match toDataURL data qrOptions with
        | Return dataUri => Return dataUri
        | Throw (ErrorObj message) => Throw (ErrorObj message)
        | Throw URIErrorObj => Throw URIErrorObj
        | Throw (NonError _) =>
            Throw (ErrorObj (lit "Failed to generate QR code. Please try again."))
        end
    end
  /\ (forall e,
        selectData URL_href type params = Throw e ->
        e = URIErrorObj
        \/ exists message, e = ErrorObj message /\ In message writtenMessages).
Proof.
  split; [|apply selectData_throws_written].
  rewrite generateQRCode_outcome.
  destruct (selectData URL_href type params) as [data|e]; [|reflexivity].
  cbn [fst]. destruct (toDataURL data qrOptions) as [uri|[m| |v]]; reflexivity.
Qed.

Lemma errors_reach_the_caller_witness :
  ErrorObj (lit "Please enter some text") = URIErrorObj
  \/ exists message,
       ErrorObj (lit "Please enter some text") = ErrorObj message
       /\ In message writtenMessages.
Proof.
  exact (proj2 (errors_reach_the_caller URLStandard.URL_href
                  (rasterizerResolving (lit "data:,")) (lit "text")
                  (textRequest (lit "")) [])
           (ErrorObj (lit "Please enter some text")) eq_refl).
Defined.

(** C4 as stated fails: a rasterizer that rejects with an [Error] (here
    the one the library raises for a text too long for a QR code) has its
    message reach the caller, not the generic one; and an encoding that
    fails, on a lone surrogate in the subject, reaches the caller as the
    [URIError] of the platform, which has no written message. *)
Lemma errors_reach_the_caller_counterexample :
  (generateQRCode URLStandard.URL_href
     (rasterizerRejecting
        (ErrorObj (lit "The amount of data is too big to be stored in a QR Code")))
     (lit "text") (textRequest (lit "hello")) [] =
   (Throw (ErrorObj (lit "The amount of data is too big to be stored in a QR Code")),
    [(lit "hello", qrOptions)])
   /\ lit "The amount of data is too big to be stored in a QR Code"
      <> lit "Failed to generate QR code. Please try again.")
  /\ generateQRCode URLStandard.URL_href (rasterizerResolving (lit "data:,"))
       (lit "email")
       {| url := lit ""; vcardData := janeDoe;
          emailData := {| EmailData.email := lit "a@b.com";
                          EmailData.subject := [0xD83D];
                          EmailData.body := lit "" |};
          smsData := noSMS; text := lit ""; wifiData := noWiFi |} []
     = (Throw URIErrorObj, []).
Proof.
  split; [split; [vm_compute; reflexivity | discriminate] | vm_compute; reflexivity].
Qed.

(** C2, as the code has it. A plain-text request fails with "Please enter
    some text" exactly when the text is empty or white space only, and then
    the rasterizer is not called; otherwise the rasterizer is called once,
    with the text as it was given, white space at its ends included. *)
Theorem text_payload_is_the_text
  (URL_href : jsstring -> option jsstring)
  (toDataURL : jsstring -> QRCodeToDataURLOptions -> result jsstring)
  (params : QRCodeParams) (calls : list (jsstring * QRCodeToDataURLOptions)) :
  selectData URL_href (lit "text") params =
    (if blank (text params) then Throw (ErrorObj (lit "Please enter some text"))
     else Return (text params))
  /\ snd (generateQRCode URL_href toDataURL (lit "text") params calls) =
     (if blank (text params) then calls else calls ++ [(text params, qrOptions)]).
Proof.
  assert (S : selectData URL_href (lit "text") params =
              (if blank (text params) then Throw (ErrorObj (lit "Please enter some text"))
               else Return (text params))).
  { unfold selectData.
    change (strictEq (lit "text") (lit "url")) with false.
    change (strictEq (lit "text") (lit "vcard")) with false.
    change (strictEq (lit "text") (lit "email")) with false.
    change (strictEq (lit "text") (lit "sms")) with false.
    change (strictEq (lit "text") (lit "text")) with true.
    cbv iota. rewrite validateText_checks. cbn [firstFailure].
    destruct (blank (text params)); reflexivity. }
  split; [exact S|].
  rewrite generateQRCode_outcome, S.
  destruct (blank (text params)); reflexivity.
Qed.

(** C2 as stated fails: the text " hi " is handed to the rasterizer with
    its spaces, not trimmed. *)
Lemma text_payload_counterexample :
  blank (lit " hi ") = false
  /\ snd (generateQRCode URLStandard.URL_href (rasterizerResolving (lit "data:,"))
            (lit "text") (textRequest (lit " hi ")) []) =
     [(lit " hi ", qrOptions)]
  /\ trim (lit " hi ") = lit "hi"
  /\ lit " hi " <> lit "hi".
Proof. repeat split; try (vm_compute; reflexivity). discriminate. Qed.

(** ** URL *)

(** C5, as the code has it. [validateUrl] trims its input and fails with
    "Please enter a URL" exactly when nothing is left; otherwise it parses
    the trimmed input, parses it again behind "https://" when that fails,
    fails with "Please enter a valid website URL" when both parses fail,
    and returns the serialized URL of the parse that succeeded. So
    "example.com" gives "https://example.com/"; and "http://" does not
    fail: its second parse, of "https://http://", succeeds with host
    "http", an empty port and the path "//", and gives "https://http//". *)
Theorem url_validation :
  (forall (URL_href : jsstring -> option jsstring) (u : jsstring),
     validateUrl URL_href u =
     if blank u then Throw (ErrorObj (lit "Please enter a URL"))
     else
       match URL_href (trim u) with
       | Some href => Return href
       | None =>
           match URL_href (lit "https://" ++ trim u) with
           | Some href => Return href
           | None => Throw (ErrorObj (lit "Please enter a valid website URL"))
           end
       end)
  /\ (forall (URL_href : jsstring -> option jsstring) (u : jsstring),
        validateUrl URL_href u = Throw (ErrorObj (lit "Please enter a URL"))
        <-> trim u = [])
  /\ (URLStandard.parse (lit "example.com") = URLStandard.Failure
      /\ URLStandard.parse (lit "https://example.com")
         = URLStandard.Href (lit "https://example.com/")
      /\ validateUrl URLStandard.URL_href (lit "example.com")
         = Return (lit "https://example.com/"))
  /\ (URLStandard.parse (lit "http://") = URLStandard.Failure
      /\ URLStandard.parse (lit "https://http://")
         = URLStandard.Href (lit "https://http//")
      /\ validateUrl URLStandard.URL_href (lit "http://")
         = Return (lit "https://http//")).
Proof.
  assert (G : forall (URL_href : jsstring -> option jsstring) (u : jsstring),
     validateUrl URL_href u =
     if blank u then Throw (ErrorObj (lit "Please enter a URL"))
     else
       match URL_href (trim u) with
       | Some href => Return href
       | None =>
           match URL_href (lit "https://" ++ trim u) with
           | Some href => Return href
           | None => Throw (ErrorObj (lit "Please enter a valid website URL"))
           end
       end).
  { intros U u. unfold validateUrl. rewrite trim_blank, negb_involutive. reflexivity. }
  split; [exact G|]. split.
  - intros U u. rewrite G, <- (truthy_false (trim u)), trim_blank.
    destruct (blank u); cbn [negb]; [tauto|].
    split; [|intros E; discriminate E].
    destruct (U (trim u)); [intros E; discriminate E|].
    destruct (U (lit "https://" ++ trim u)); [intros E; discriminate E|].
    intros E. vm_compute in E. discriminate E.
  - repeat split; vm_compute; reflexivity.
Qed.

Lemma url_validation_witness : trim (lit "  ") = [].
Proof.
  exact (proj1 (proj1 (proj2 url_validation) URLStandard.URL_href (lit "  ")) eq_refl).
Defined.

(** C5 as stated fails on its last example: "http://" does not fail with
    "Please enter a valid website URL" but is accepted as
    "https://http//". *)
Lemma url_validation_counterexample :
  validateUrl URLStandard.URL_href (lit "http://") = Return (lit "https://http//")
  /\ validateUrl URLStandard.URL_href (lit "http://")
     <> Throw (ErrorObj (lit "Please enter a valid website URL")).
Proof. split; [vm_compute; reflexivity | vm_compute; discriminate]. Qed.

(** ** Order of the checks *)

(** C8, as the code has it. Every validator runs its checks in a fixed
    order and stops at the first one that fails, the presence of a
    required field being checked before its format. For a contact the
    order is: first and last name, then email, then mobile, phone,
    workPhone and fax. *)
Theorem validation_order :
  (forall d,
     validateVCardData d =
     firstFailure
       [ (blank (VCardData.firstName d) || blank (VCardData.lastName d),
          lit "Please enter both first and last name");
         (truthy (VCardData.email d) && negb (matches emailPattern (VCardData.email d)),
          lit "Please enter a valid email address");
         (hasNonPhoneChar (VCardData.mobile d), lit "Please enter a valid mobile");
         (hasNonPhoneChar (VCardData.phone d), lit "Please enter a valid phone");
         (hasNonPhoneChar (VCardData.workPhone d), lit "Please enter a valid work phone");
         (hasNonPhoneChar (VCardData.fax d), lit "Please enter a valid fax") ])
  /\ (forall d,
        validateEmailData d =
        firstFailure
          [ (blank (EmailData.email d), lit "Please enter an email address");
            (negb (matches emailPattern (EmailData.email d)),
             lit "Please enter a valid email address") ])
  /\ (forall d,
        validateSMSData d =
        firstFailure
          [ (blank (SMSData.phone d), lit "Please enter a phone number");
            (negb (matches phonePattern (SMSData.phone d)),
             lit "Please enter a valid phone number") ])
  /\ (forall d,
        validateWiFiData d =
        firstFailure
          [ (blank (WiFiData.ssid d), lit "Please enter a network name (SSID)");
            (match WiFiData.encryption d with WiFiData.nopass => false | _ => true end
             && blank (WiFiData.password d),
             lit "Please enter a network password") ])
  /\ (forall t,
        validateText t = firstFailure [(blank t, lit "Please enter some text")])
  /\ (forall (URL_href : jsstring -> option jsstring) u,
        (validateUrl URL_href u ;;; Return tt) =
        firstFailure
          [ (blank u, lit "Please enter a URL");
            (match URL_href (trim u), URL_href (lit "https://" ++ trim u) with
             | None, None => true
             | _, _ => false
             end,
             lit "Please enter a valid website URL") ]).
Proof.
  repeat split; intros.
  - apply validateVCardData_checks.
  - apply validateEmailData_checks.
  - apply validateSMSData_checks.
  - apply validateWiFiData_checks.
  - apply validateText_checks.
  - apply validateUrl_checks.
Qed.

(** C8 as stated fails: with a malformed mobile and a malformed email,
    the error is the one of the email, although mobile is declared before
    it. *)
Lemma validation_order_counterexample :
  hasNonPhoneChar (lit "abc") = true
  /\ matches emailPattern (lit "bad") = false
  /\ validateVCardData
       (contactOf (lit "Jane") (lit "Doe") (lit "abc") (lit "") (lit "") (lit "bad") (lit ""))
     = Throw (ErrorObj (lit "Please enter a valid email address"))
  /\ lit "Please enter a valid email address" <> lit "Please enter a valid mobile".
Proof. repeat split; try (vm_compute; reflexivity). discriminate. Qed.

(** ** Phone fields of a contact *)

(** C3, as the code has it. For a contact whose first and last names are
    not blank and whose email is empty or well formed, validation fails
    exactly when one of mobile, phone, workPhone and fax holds a code unit
    outside the set of [+], digits, white space (the class [\s]: tabs and
    line breaks as well as the space), hyphen and parentheses; the message
    names the first such field in that order, in lower case: "mobile",
    "phone", "work phone", "fax". *)
Theorem phone_field_messages (d : VCardData.t) :
  blank (VCardData.firstName d) = false ->
  blank (VCardData.lastName d) = false ->
  VCardData.email d = [] \/ matches emailPattern (VCardData.email d) = true ->
  validateVCardData d =
  firstFailure
    [ (hasNonPhoneChar (VCardData.mobile d), lit "Please enter a valid mobile");
      (hasNonPhoneChar (VCardData.phone d), lit "Please enter a valid phone");
      (hasNonPhoneChar (VCardData.workPhone d), lit "Please enter a valid work phone");
      (hasNonPhoneChar (VCardData.fax d), lit "Please enter a valid fax") ].
Proof.
  intros F L E. rewrite validateVCardData_checks. cbn [firstFailure].
  rewrite F, L. cbn [orb].
  destruct E as [-> | ->]; [|rewrite andb_false_r]; reflexivity.
Qed.

Lemma phone_field_messages_witness :
  validateVCardData
    (contactOf (lit "Jane") (lit "Doe") (lit "") (lit "abc") (lit "") (lit "a@b.com") (lit ""))
  = Throw (ErrorObj (lit "Please enter a valid work phone")).
Proof.
  exact (phone_field_messages
           (contactOf (lit "Jane") (lit "Doe") (lit "") (lit "abc") (lit "")
              (lit "a@b.com") (lit ""))
           eq_refl eq_refl (or_intror eq_refl)).
Defined.

(** C3 as stated fails: a malformed workPhone gives "Please enter a valid
    work phone", in lower case; a malformed fax is not named when mobile
    is malformed too, nor is a malformed workPhone when the email is;
    and a tab in a phone field is accepted. *)
Lemma phone_field_messages_counterexample :
  (validateVCardData
     (contactOf (lit "Jane") (lit "Doe") (lit "") (lit "abc") (lit "") (lit "") (lit ""))
   = Throw (ErrorObj (lit "Please enter a valid work phone"))
   /\ lit "Please enter a valid work phone" <> lit "Please enter a valid work Phone")
  /\ validateVCardData
       (contactOf (lit "Jane") (lit "Doe") (lit "abc") (lit "") (lit "xyz") (lit "") (lit ""))
     = Throw (ErrorObj (lit "Please enter a valid mobile"))
  /\ validateVCardData
       (contactOf (lit "Jane") (lit "Doe") (lit "") (lit "abc") (lit "") (lit "bad") (lit ""))
     = Throw (ErrorObj (lit "Please enter a valid email address"))
  /\ (validateVCardData
        (contactOf (lit "Jane") (lit "Doe") (lit "555" ++ 9 :: lit "1234")
           (lit "") (lit "") (lit "") (lit ""))
      = Return tt
      /\ phoneCharAsSpecified 9 = false).
Proof. repeat split; try (vm_compute; reflexivity). discriminate. Qed.

(** ** WiFi *)

(** C7, as the code has it. For a WiFi record whose ssid is not blank
    (and whose password is not blank unless the encryption is nopass) the
    builder returns "WIFI:T:<encryption>;S:<ssid>;P:<password>", then
    ";H:true" when hidden is true and only then, then ";;"; ssid and
    password are written as they were given, for nopass too. So ssid
    "Home" with nopass, no password and hidden false gives
    "WIFI:T:nopass;S:Home;P:;;". *)
Theorem wifi_string (d : WiFiData.t) :
  blank (WiFiData.ssid d) = false ->
  WiFiData.encryption d = WiFiData.nopass \/ blank (WiFiData.password d) = false ->
  generateWiFiString d =
    Return (lit "WIFI:T:" ++ WiFiData.encryptionString (WiFiData.encryption d)
              ++ lit ";S:" ++ WiFiData.ssid d
              ++ lit ";P:" ++ WiFiData.password d
              ++ (if WiFiData.hidden d then lit ";H:true" else [])
              ++ lit ";;")
  /\ generateWiFiString homeWiFi = Return (lit "WIFI:T:nopass;S:Home;P:;;").
Proof.
  intros S P. split; [|vm_compute; reflexivity].
  unfold generateWiFiString. rewrite validateWiFiData_checks. cbn [firstFailure].
  rewrite S. destruct P as [-> | ->]; [|rewrite andb_false_r]; reflexivity.
Qed.

Lemma wifi_string_witness :
  generateWiFiString homeWiFi = Return (lit "WIFI:T:nopass;S:Home;P:;;").
Proof.
  exact (proj1 (wifi_string homeWiFi eq_refl (or_introl eq_refl))).
Defined.

(** C7 as stated fails: an ssid that is not empty but blank, here a
    single space, is refused. *)
Lemma wifi_string_counterexample :
  lit " " <> []
  /\ lit "secret" <> []
  /\ generateWiFiString
       {| WiFiData.ssid := lit " "; WiFiData.password := lit "secret";
          WiFiData.encryption := WiFiData.WPA; WiFiData.hidden := false |}
     = Throw (ErrorObj (lit "Please enter a network name (SSID)")).
Proof. split; [discriminate|]. split; [discriminate|]. vm_compute. reflexivity. Qed.

(** ** vCard *)

Lemma join_snoc (sep : jsstring) (l : list jsstring) (x : jsstring) :
  l <> [] -> join sep (l ++ [x]) = join sep l ++ sep ++ x.
Proof.
  induction l as [|a l IH]; [congruence|]. intros _.
  destruct l as [|b l]; [reflexivity|].
  change (join sep ((a :: b :: l) ++ [x])) with (a ++ sep ++ join sep ((b :: l) ++ [x])).
  rewrite IH by discriminate.
  change (join sep (a :: b :: l)) with (a ++ sep ++ join sep (b :: l)).
  rewrite <- !app_assoc. reflexivity.
Qed.

Lemma app_not_nil {A} (l l' : list A) : l <> [] -> l ++ l' <> [].
Proof. destruct l; [congruence | discriminate]. Qed.

Lemma appendIfPresent_join (lines : list jsstring) (label : string) (v : jsstring) :
  lines <> [] ->
  appendIfPresent (join [LF] lines) label v = join [LF] (lines ++ optionalLine label v).
Proof.
  intros N. unfold appendIfPresent, optionalLine.
  destruct (truthy (trim v)).
  - rewrite join_snoc by exact N. reflexivity.
  - rewrite app_nil_r. reflexivity.
Qed.

Lemma removeSemicolons_app (a b : jsstring) :
  removeSemicolons (a ++ b) = removeSemicolons a ++ removeSemicolons b.
Proof. apply filter_app. Qed.

Lemma removeSemicolons_join (parts : list jsstring) :
  truthy (removeSemicolons (join (lit ";") parts)) =
  existsb (fun part => truthy (removeSemicolons part)) parts.
Proof.
  induction parts as [|a l IH]; [reflexivity|].
  destruct l as [|b l].
  - cbn [join existsb]. rewrite orb_false_r. reflexivity.
  - change (join (lit ";") (a :: b :: l)) with (a ++ lit ";" ++ join (lit ";") (b :: l)).
    rewrite !removeSemicolons_app, !truthy_app, IH. reflexivity.
Qed.

(** The address of the builder is the five trimmed parts behind two
    empty ones. *)
Lemma address_join (d : VCardData.t) :
  join (lit ";")
    [ lit ""; lit "";
      orElse (trim (VCardData.street d)) (lit "");
      orElse (trim (VCardData.city d)) (lit "");
      orElse (trim (VCardData.state d)) (lit "");
      orElse (trim (VCardData.zip d)) (lit "");
      orElse (trim (VCardData.country d)) (lit "") ]
  = lit ";;" ++ join (lit ";") (addressParts d).
Proof. rewrite !orElse_empty. reflexivity. Qed.

Lemma address_join_line (lines : list jsstring) (d : VCardData.t) :
  lines <> [] ->
  (if truthy (removeSemicolons (lit ";;" ++ join (lit ";") (addressParts d)))
   then join [LF] lines ++ LF :: lit "ADR:" ++ lit ";;" ++ join (lit ";") (addressParts d)
   else join [LF] lines)
  = join [LF] (lines ++ addressLine d).
Proof.
  intros N. unfold addressLine. rewrite <- removeSemicolons_join.
  change (removeSemicolons (lit ";;" ++ join (lit ";") (addressParts d)))
    with (removeSemicolons (join (lit ";") (addressParts d))).
  destruct (truthy (removeSemicolons (join (lit ";") (addressParts d)))).
  - rewrite join_snoc by exact N. reflexivity.
  - rewrite app_nil_r. reflexivity.
Qed.

Lemma header_join (d : VCardData.t) :
  lit "BEGIN:VCARD" ++ LF ::
  lit "VERSION:3.0" ++ LF ::
  lit "FN:" ++ trim (VCardData.firstName d) ++ lit " "
    ++ trim (VCardData.lastName d) ++ LF ::
  lit "N:" ++ trim (VCardData.lastName d) ++ lit ";"
    ++ trim (VCardData.firstName d) ++ lit ";;;"
  = join [LF] (mandatoryLines d).
Proof.
  unfold mandatoryLines. cbn [join]. rewrite <- !app_assoc. reflexivity.
Qed.

(** The builder writes the lines of the specification, in their order. *)
Lemma generateVCardString_lines (d : VCardData.t) :
  generateVCardString d = (validateVCardData d ;;; Return (join [LF] (vcardLines d))).
Proof.
  unfold generateVCardString. cbv zeta.
  destruct (validateVCardData d); [|reflexivity]. cbn [bind]. f_equal.
  assert (M : mandatoryLines d <> []) by discriminate.
  rewrite address_join, header_join.
  rewrite !appendIfPresent_join by (repeat apply app_not_nil; exact M).
  rewrite address_join_line by (repeat apply app_not_nil; exact M).
  rewrite appendIfPresent_join by (repeat apply app_not_nil; exact M).
  change (join [LF] ?l ++ LF :: lit "END:VCARD")
    with (join [LF] l ++ [LF] ++ lit "END:VCARD").
  rewrite <- join_snoc by (repeat apply app_not_nil; exact M).
  unfold vcardLines, optionalLines. rewrite <- !app_assoc. reflexivity.
Qed.

(** ** SMS *)

Lemma forallb_impl (p q : code_unit -> bool) (s : jsstring) :
  (forall c, p c = true -> q c = true) ->
  forallb p s = true -> forallb q s = true.
Proof.
  intros I. rewrite !forallb_forall. intros H c C. apply I, H, C.
Qed.

Lemma count_occ_none (p : code_unit -> bool) (s : jsstring) (c : code_unit) :
  forallb p s = true -> p c = false -> count_occ N.eq_dec s c = 0%nat.
Proof.
  intros H P. apply count_occ_not_In. intros C.
  rewrite forallb_forall in H. rewrite (H c C) in P. discriminate.
Qed.

(** Without a surrogate code unit the encoding succeeds. *)
Lemma encodeURIComponent_returns (s : jsstring) :
  forallb (fun c => negb (isSurrogate c)) s = true ->
  exists e, encodeURIComponent s = Return e.
Proof.
  induction s as [|c r IH]; [exists []; reflexivity|].
  cbn [forallb]. rewrite andb_true_iff, negb_true_iff. unfold isSurrogate at 1.
  rewrite orb_false_iff. intros [[L T] R]. destruct (IH R) as [e E].
  rewrite encodeURIComponent_cons, L, T, E. cbn [bind].
  destruct (uriUnreserved c); eexists; reflexivity.
Qed.

Lemma validateSMSData_accepts (d : SMSData.t) :
  validateSMSData d = Return tt ->
  blank (SMSData.phone d) = false /\ matches phonePattern (SMSData.phone d) = true.
Proof.
  rewrite validateSMSData_checks. cbn [firstFailure].
  destruct (blank (SMSData.phone d)); [discriminate|].
  destruct (matches phonePattern (SMSData.phone d)); [auto | discriminate].
Qed.

Lemma generateSMSString_accepted (d : SMSData.t) :
  validateSMSData d = Return tt ->
  generateSMSString d =
  (m <- encodeURIComponent (SMSData.message d) ;;
   Return (lit "sms:" ++ SMSData.phone d
             ++ (if truthy (SMSData.message d) then lit ":" ++ m else []))).
Proof.
  intros V. unfold generateSMSString. rewrite V, orElse_empty. cbn [bind].
  destruct (encodeURIComponent (SMSData.message d)) as [m|e] eqn:E; [|reflexivity].
  cbn [bind]. apply encodeURIComponent_safe in E. destruct E as [_ ->]. reflexivity.
Qed.

(** C10, as the code has it. In an accepted SMS record every code unit
    of the phone is [+], a digit, white space (the class [\s]: tabs and
    line breaks as well as the space), a hyphen or a parenthesis. The
    builder then gives "sms:<phone>", followed by ":" and the
    percent-encoded message exactly when the message is not empty; the
    colon of the scheme and the colon before the message are the only
    ones. It returns whenever the message holds no surrogate code unit. *)
Theorem sms_string (d : SMSData.t) :
  validateSMSData d = Return tt ->
  forallb phoneChar (SMSData.phone d) = true
  /\ generateSMSString d =
     (m <- encodeURIComponent (SMSData.message d) ;;
      Return (lit "sms:" ++ SMSData.phone d
                ++ (if truthy (SMSData.message d) then lit ":" ++ m else [])))
  /\ (forall out,
        generateSMSString d = Return out ->
        count_occ N.eq_dec out 58 = if truthy (SMSData.message d) then 2%nat else 1%nat)
  /\ (forallb (fun c => negb (isSurrogate c)) (SMSData.message d) = true ->
      exists out, generateSMSString d = Return out).
Proof.
  intros V. pose proof (generateSMSString_accepted d V) as G.
  destruct (validateSMSData_accepts d V) as [_ M]. apply phone_accepted in M.
  split; [exact M|]. split; [exact G|]. split.
  - intros out. rewrite G.
    destruct (encodeURIComponent (SMSData.message d)) as [m|e] eqn:E; [|discriminate].
    cbn [bind]. intros O.
    assert (O' : out = lit "sms:" ++ SMSData.phone d
                         ++ (if truthy (SMSData.message d) then lit ":" ++ m else []))
      by congruence.
    rewrite O'. apply encodeURIComponent_safe in E. destruct E as [S _].
    rewrite !count_occ_app, (count_occ_none phoneChar _ 58 M eq_refl).
    destruct (truthy (SMSData.message d)); [|reflexivity].
    rewrite count_occ_app, (count_occ_none uriSafe m 58 S eq_refl). reflexivity.
  - intros N. rewrite G. destruct (encodeURIComponent_returns _ N) as [m ->].
    eexists. reflexivity.
Qed.

Lemma sms_string_witness :
  generateSMSString {| SMSData.phone := lit "555-1234"; SMSData.message := lit "" |}
  = Return (lit "sms:555-1234").
Proof.
  exact (proj1 (proj2 (sms_string
           {| SMSData.phone := lit "555-1234"; SMSData.message := lit "" |} eq_refl))).
Defined.

(** C10 as stated fails: a phone with a tab is accepted, and a tab is
    none of [+], a digit, the space, a hyphen or a parenthesis. *)
Lemma sms_string_counterexample :
  validateSMSData
    {| SMSData.phone := lit "555" ++ 9 :: lit "1234"; SMSData.message := lit "" |}
  = Return tt
  /\ forallb phoneCharAsSpecified (lit "555" ++ 9 :: lit "1234") = false
  /\ generateSMSString
       {| SMSData.phone := lit "555" ++ 9 :: lit "1234"; SMSData.message := lit "" |}
     = Return (lit "sms:555" ++ 9 :: lit "1234").
Proof. repeat split; vm_compute; reflexivity. Qed.

(** ** What the builders do to their fields *)

Lemma blank_trim (s : jsstring) : blank (trim s) = blank s.
Proof.
  pose proof (trim_blank (trim s)) as H.
  rewrite trim_idempotent, trim_blank in H.
  destruct (blank (trim s)), (blank s); simpl in H; congruence.
Qed.

Lemma hasNonPhoneChar_false (v : jsstring) :
  hasNonPhoneChar v = false <-> forallb phoneChar v = true.
Proof.
  unfold hasNonPhoneChar. induction v as [|c v IH]; simpl; [tauto|].
  destruct (phoneChar c); simpl; [exact IH | split; discriminate].
Qed.

Lemma hasNonPhoneChar_trim (v : jsstring) :
  hasNonPhoneChar v = false -> hasNonPhoneChar (trim v) = false.
Proof. rewrite !hasNonPhoneChar_false. apply trim_forallb. Qed.

(** A valid contact stays valid when its fields are trimmed. *)
Lemma validateVCardData_trimFields (d : VCardData.t) :
  validateVCardData d = Return tt -> validateVCardData (trimFields d) = Return tt.
Proof.
  rewrite !validateVCardData_checks. cbn [firstFailure]. unfold trimFields.
  cbn [VCardData.firstName VCardData.lastName VCardData.email VCardData.mobile
       VCardData.phone VCardData.workPhone VCardData.fax].
  rewrite !blank_trim.
  destruct (blank (VCardData.firstName d) || blank (VCardData.lastName d));
    [discriminate|].
  assert (E : truthy (VCardData.email d) && negb (matches emailPattern (VCardData.email d)) = false ->
              truthy (trim (VCardData.email d))
              && negb (matches emailPattern (trim (VCardData.email d))) = false).
  { destruct (VCardData.email d) as [|c e] eqn:M; [reflexivity|]. cbn [truthy andb].
    rewrite negb_false_iff. intros H.
    rewrite (trim_no_space _ (email_no_space _ H)), H. reflexivity. }
  destruct (truthy (VCardData.email d) && negb (matches emailPattern (VCardData.email d)));
    [discriminate|].
  rewrite E by reflexivity.
  destruct (hasNonPhoneChar (VCardData.mobile d)) eqn:P1; [discriminate|].
  destruct (hasNonPhoneChar (VCardData.phone d)) eqn:P2; [discriminate|].
  destruct (hasNonPhoneChar (VCardData.workPhone d)) eqn:P3; [discriminate|].
  destruct (hasNonPhoneChar (VCardData.fax d)) eqn:P4; [discriminate|].
  rewrite !hasNonPhoneChar_trim by assumption. reflexivity.
Qed.

Lemma vcardLines_trimFields (d : VCardData.t) :
  vcardLines (trimFields d) = vcardLines d.
Proof.
  unfold vcardLines, mandatoryLines, optionalLines, optionalLine, addressLine,
    addressParts, trimFields.
  cbn [VCardData.firstName VCardData.lastName VCardData.email VCardData.mobile
       VCardData.phone VCardData.workPhone VCardData.fax VCardData.company
       VCardData.jobTitle VCardData.street VCardData.city VCardData.zip
       VCardData.state VCardData.country VCardData.website map].
  rewrite !trim_idempotent. reflexivity.
Qed.

Lemma generateEmailString_returns (d : EmailData.t) (out : jsstring) :
  generateEmailString d = Return out ->
  matches emailPattern (EmailData.email d) = true
  /\ exists subject body,
       encodeURIComponent (EmailData.subject d) = Return subject
       /\ encodeURIComponent (EmailData.body d) = Return body
       /\ out = lit "mailto:" ++ EmailData.email d ++ lit "?subject=" ++ subject
                  ++ lit "&body=" ++ body.
Proof.
  unfold generateEmailString. rewrite validateEmailData_checks, !orElse_empty.
  cbn [firstFailure].
  destruct (blank (EmailData.email d)); [discriminate|].
  destruct (matches emailPattern (EmailData.email d)); [|discriminate].
  cbn [negb bind].
  destruct (encodeURIComponent (EmailData.subject d)) as [s|]; [|discriminate].
  destruct (encodeURIComponent (EmailData.body d)) as [b|]; [|discriminate].
  cbn [bind]. intros O. split; [reflexivity|]. exists s, b.
  repeat split. congruence.
Qed.

(** C1, as the code has it. The vCard builder trims every field it
    writes: its output is the one of the contact with all fields trimmed.
    The mailto builder percent-encodes subject and body and its output
    holds no white space at all; the sms builder percent-encodes the
    message. A percent-encoded text is made of unreserved characters and
    percent signs, none of them a control character or white space. *)
Theorem fields_sanitized :
  (forall d out,
     generateVCardString d = Return out ->
     generateVCardString (trimFields d) = Return out)
  /\ (forall d out,
        generateEmailString d = Return out ->
        forallb (fun c => negb (isWhiteSpace c)) out = true
        /\ exists subject body,
             encodeURIComponent (EmailData.subject d) = Return subject
             /\ encodeURIComponent (EmailData.body d) = Return body
             /\ forallb uriSafe subject = true
             /\ forallb uriSafe body = true
             /\ out = lit "mailto:" ++ EmailData.email d ++ lit "?subject=" ++ subject
                        ++ lit "&body=" ++ body)
  /\ (forall d out,
        generateSMSString d = Return out ->
        exists message,
          encodeURIComponent (SMSData.message d) = Return message
          /\ forallb uriSafe message = true
          /\ out = lit "sms:" ++ SMSData.phone d
                     ++ (if truthy message then lit ":" ++ message else []))
  /\ (forall c, uriSafe c = true -> isControl c = false /\ isWhiteSpace c = false).
Proof.
  split; [|split; [|split]].
  - intros d out G.
    assert (V : validateVCardData d = Return tt).
    { unfold generateVCardString in G.
      destruct (validateVCardData d) as [[]|]; [reflexivity | discriminate G]. }
    rewrite generateVCardString_lines, V in G.
    rewrite generateVCardString_lines, (validateVCardData_trimFields d V),
      vcardLines_trimFields.
    exact G.
  - intros d out G. apply generateEmailString_returns in G.
    destruct G as [M (s & b & Es & Eb & ->)].
    pose proof (encodeURIComponent_safe _ _ Es) as [Ss _].
    pose proof (encodeURIComponent_safe _ _ Eb) as [Sb _].
    assert (W : forall x, forallb uriSafe x = true ->
                          forallb (fun c => negb (isWhiteSpace c)) x = true).
    { intros x. apply forallb_impl. intros c C.
      rewrite (uriSafe_no_space c C). reflexivity. }
    split.
    + rewrite !forallb_app, (email_no_space _ M), (W s Ss), (W b Sb). reflexivity.
    + exists s, b. auto.
  - intros d out G. unfold generateSMSString in G.
    destruct (validateSMSData d); [|discriminate G]. cbn [bind] in G.
    rewrite orElse_empty in G.
    destruct (encodeURIComponent (SMSData.message d)) as [m|] eqn:E; [|discriminate G].
    cbn [bind] in G. exists m. pose proof (encodeURIComponent_safe _ _ E) as [S _].
    split; [reflexivity|]. split; [exact S|]. injection G as <-. reflexivity.
  - intros c C. split; [apply uriSafe_no_control | apply uriSafe_no_space]; exact C.
Qed.

Lemma fields_sanitized_witness :
  generateVCardString
    (trimFields (contactOf (lit " Jane ") (lit "Doe ") (lit " +1 555-123-4567")
                   (lit "") (lit "") (lit "") (lit "")))
  = Return (join [LF] (vcardLines janeDoe)).
Proof.
  exact (proj1 fields_sanitized
           (contactOf (lit " Jane ") (lit "Doe ") (lit " +1 555-123-4567")
              (lit "") (lit "") (lit "") (lit ""))
           (join [LF] (vcardLines janeDoe)) eq_refl).
Defined.

(** C1 as stated fails: the WiFi builder writes the ssid as it was given,
    here with the line feed it ends with, a control character that
    trimming would have removed; and the vCard builder lets a line feed
    inside a field through, which splits the ORG line in two. *)
Lemma fields_sanitized_counterexample :
  (validateWiFiData
     {| WiFiData.ssid := lit "Home" ++ [LF]; WiFiData.password := lit "secret";
        WiFiData.encryption := WiFiData.WPA; WiFiData.hidden := false |}
   = Return tt
   /\ generateWiFiString
        {| WiFiData.ssid := lit "Home" ++ [LF]; WiFiData.password := lit "secret";
           WiFiData.encryption := WiFiData.WPA; WiFiData.hidden := false |}
      = Return (lit "WIFI:T:WPA;S:Home" ++ LF :: lit ";P:secret;;")
   /\ isControl LF = true
   /\ trim (lit "Home" ++ [LF]) = lit "Home")
  /\ (validateVCardData
        (contactOf (lit "Jane") (lit "Doe") (lit "") (lit "") (lit "") (lit "")
           (lit "Acme" ++ LF :: lit "Inc"))
      = Return tt
      /\ generateVCardString
           (contactOf (lit "Jane") (lit "Doe") (lit "") (lit "") (lit "") (lit "")
              (lit "Acme" ++ LF :: lit "Inc"))
         = Return (join [LF]
                     [ lit "BEGIN:VCARD"; lit "VERSION:3.0"; lit "FN:Jane Doe";
                       lit "N:Doe;Jane;;;"; lit "ORG:Acme"; lit "Inc";
                       lit "END:VCARD" ])).
Proof. repeat split; vm_compute; reflexivity. Qed.

(** ** The examples of the specification *)

Example trim_example :
  trim (9 :: 32 :: lit "a b" ++ [0xA0; 10; 0xFEFF]) = lit "a b".
Proof. reflexivity. Qed.

Example emailPattern_examples :
  matches emailPattern (lit "a@b.com") = true
  /\ matches emailPattern (lit "first.last@mail.example.org") = true
  /\ matches emailPattern (lit "a@b") = false
  /\ matches emailPattern (lit "a b@c.de") = false
  /\ matches emailPattern (lit "a@b@c.de") = false
  /\ matches emailPattern (lit "@b.com") = false.
Proof. repeat split; reflexivity. Qed.

Example phonePattern_examples :
  matches phonePattern (lit "+1 (555) 123-4567") = true
  /\ matches phonePattern (lit "") = false
  /\ matches phonePattern (lit "555.1234") = false
  /\ matches phonePattern (lit "555" ++ LF :: lit "1234") = true.
Proof. repeat split; reflexivity. Qed.

Example encodeURIComponent_examples :
  encodeURIComponent (lit "Hi there") = Return (lit "Hi%20there")
  /\ encodeURIComponent (lit "a:b/c?d=e&f") = Return (lit "a%3Ab%2Fc%3Fd%3De%26f")
  /\ encodeURIComponent [0xE9] = Return (lit "%C3%A9")
  /\ encodeURIComponent [0x20AC] = Return (lit "%E2%82%AC")
  /\ encodeURIComponent [0xD83D; 0xDE00] = Return (lit "%F0%9F%98%80")
  /\ encodeURIComponent [0xD83D] = Throw URIErrorObj
  /\ encodeURIComponent [0xDE00; 0xD83D] = Throw URIErrorObj.
Proof. repeat split; vm_compute; reflexivity. Qed.

Example mailto_example :
  generateEmailString
    {| EmailData.email := lit "a@b.com"; EmailData.subject := lit "Hi there";
       EmailData.body := lit "" |}
  = Return (lit "mailto:a@b.com?subject=Hi%20there&body=").
Proof. vm_compute. reflexivity. Qed.

Example sms_example :
  generateSMSString {| SMSData.phone := lit "555-1234"; SMSData.message := lit "" |}
  = Return (lit "sms:555-1234")
  /\ generateSMSString
       {| SMSData.phone := lit "555-1234"; SMSData.message := lit "see you: 5pm" |}
     = Return (lit "sms:555-1234:see%20you%3A%205pm").
Proof. split; vm_compute; reflexivity. Qed.

Example required_fields_examples :
  validateUrl URLStandard.URL_href (lit "  ") = Throw (ErrorObj (lit "Please enter a URL"))
  /\ validateVCardData (contactOf (lit " ") (lit "Doe") [] [] [] [] [])
     = Throw (ErrorObj (lit "Please enter both first and last name"))
  /\ validateEmailData noEmail = Throw (ErrorObj (lit "Please enter an email address"))
  /\ validateSMSData noSMS = Throw (ErrorObj (lit "Please enter a phone number"))
  /\ validateText [LF] = Throw (ErrorObj (lit "Please enter some text"))
  /\ validateWiFiData noWiFi = Throw (ErrorObj (lit "Please enter a network name (SSID)")).
Proof. repeat split; vm_compute; reflexivity. Qed.

Example URLStandard_examples :
  URLStandard.parse (lit "https://example.com/a/b") = URLStandard.Href (lit "https://example.com/a/b")
  /\ URLStandard.parse (lit "HTTP://Example.COM:80") = URLStandard.Href (lit "http://example.com/")
  /\ URLStandard.parse (lit "https://example.com:8443/x") = URLStandard.Href (lit "https://example.com:8443/x")
  /\ URLStandard.parse (lit "https:example.com") = URLStandard.Href (lit "https://example.com/")
  /\ URLStandard.parse (lit "example.com/path") = URLStandard.Failure
  /\ URLStandard.parse (lit "http://example.com:99999") = URLStandard.Failure
  /\ URLStandard.parse (lit "http://:80") = URLStandard.Failure
  /\ URLStandard.parse (lit "http://192.168.0.1") = URLStandard.Unmodelled
  /\ URLStandard.parse (lit "mailto:a") = URLStandard.Unmodelled.
Proof. repeat split; vm_compute; reflexivity. Qed.

Example dispatcher_example :
  generateQRCode URLStandard.URL_href (rasterizerResolving (lit "data:image/png;base64,AAAA"))
    (lit "wifi")
    {| url := lit ""; vcardData := janeDoe; emailData := noEmail; smsData := noSMS;
       text := lit ""; wifiData := homeWiFi |} []
  = (Return (lit "data:image/png;base64,AAAA"),
     [(lit "WIFI:T:nopass;S:Home;P:;;", qrOptions)]).
Proof. vm_compute. reflexivity. Qed.

(** * Further properties of the code *)

(** ** The dispatcher, kind by kind *)

Lemma selectData_url (U : jsstring -> option jsstring) (p : QRCodeParams) :
  selectData U (lit "url") p = validateUrl U (url p).
Proof. reflexivity. Qed.

Lemma selectData_vcard (U : jsstring -> option jsstring) (p : QRCodeParams) :
  selectData U (lit "vcard") p = generateVCardString (vcardData p).
Proof. reflexivity. Qed.

Lemma selectData_email (U : jsstring -> option jsstring) (p : QRCodeParams) :
  selectData U (lit "email") p = generateEmailString (emailData p).
Proof. reflexivity. Qed.

Lemma selectData_sms (U : jsstring -> option jsstring) (p : QRCodeParams) :
  selectData U (lit "sms") p = generateSMSString (smsData p).
Proof. reflexivity. Qed.

Lemma selectData_text (U : jsstring -> option jsstring) (p : QRCodeParams) :
  selectData U (lit "text") p = (validateText (text p) ;;; Return (text p)).
Proof. reflexivity. Qed.

Lemma selectData_wifi (U : jsstring -> option jsstring) (p : QRCodeParams) :
  selectData U (lit "wifi") p = generateWiFiString (wifiData p).
Proof. reflexivity. Qed.

(** The dispatcher when the [switch] throws. *)
Lemma generateQRCode_refused
  (U : jsstring -> option jsstring)
  (R : jsstring -> QRCodeToDataURLOptions -> result jsstring)
  (type : jsstring) (p : QRCodeParams)
  (calls : list (jsstring * QRCodeToDataURLOptions)) (e : thrown) :
  selectData U type p = Throw e ->
  generateQRCode U R type p calls = (Throw e, calls).
Proof. intros H. rewrite generateQRCode_outcome, H. reflexivity. Qed.

(** X1. Whatever the kind, a required field that is empty or white space
    only makes [generateQRCode] fail with the message of that field,
    without a call to the rasterizer. *)
Theorem blank_required_field_never_rasterized
  (U : jsstring -> option jsstring)
  (R : jsstring -> QRCodeToDataURLOptions -> result jsstring)
  (p : QRCodeParams) (calls : list (jsstring * QRCodeToDataURLOptions)) :
  (blank (url p) = true ->
   generateQRCode U R (lit "url") p calls =
   (Throw (ErrorObj (lit "Please enter a URL")), calls))
  /\ (blank (VCardData.firstName (vcardData p)) = true
      \/ blank (VCardData.lastName (vcardData p)) = true ->
      generateQRCode U R (lit "vcard") p calls =
      (Throw (ErrorObj (lit "Please enter both first and last name")), calls))
  /\ (blank (EmailData.email (emailData p)) = true ->
      generateQRCode U R (lit "email") p calls =
      (Throw (ErrorObj (lit "Please enter an email address")), calls))
  /\ (blank (SMSData.phone (smsData p)) = true ->
      generateQRCode U R (lit "sms") p calls =
      (Throw (ErrorObj (lit "Please enter a phone number")), calls))
  /\ (blank (text p) = true ->
      generateQRCode U R (lit "text") p calls =
      (Throw (ErrorObj (lit "Please enter some text")), calls))
  /\ (blank (WiFiData.ssid (wifiData p)) = true ->
      generateQRCode U R (lit "wifi") p calls =
      (Throw (ErrorObj (lit "Please enter a network name (SSID)")), calls))
  /\ (blank (WiFiData.ssid (wifiData p)) = false ->
      WiFiData.encryption (wifiData p) <> WiFiData.nopass ->
      blank (WiFiData.password (wifiData p)) = true ->
      generateQRCode U R (lit "wifi") p calls =
      (Throw (ErrorObj (lit "Please enter a network password")), calls)).
Proof.
  repeat split.
  - intros B. apply generateQRCode_refused.
    rewrite selectData_url. unfold validateUrl. rewrite trim_blank, B. reflexivity.
  - intros B. apply generateQRCode_refused.
    rewrite selectData_vcard. unfold generateVCardString.
    rewrite validateVCardData_checks. cbn [firstFailure].
    assert (E : blank (VCardData.firstName (vcardData p))
                || blank (VCardData.lastName (vcardData p)) = true)
      by (apply orb_true_iff; exact B).
    rewrite E. reflexivity.
  - intros B. apply generateQRCode_refused.
    rewrite selectData_email. unfold generateEmailString.
    rewrite validateEmailData_checks. cbn [firstFailure]. rewrite B. reflexivity.
  - intros B. apply generateQRCode_refused.
    rewrite selectData_sms. unfold generateSMSString.
    rewrite validateSMSData_checks. cbn [firstFailure]. rewrite B. reflexivity.
  - intros B. apply generateQRCode_refused.
    rewrite selectData_text, validateText_checks. cbn [firstFailure].
    rewrite B. reflexivity.
  - intros B. apply generateQRCode_refused.
    rewrite selectData_wifi. unfold generateWiFiString.
    rewrite validateWiFiData_checks. cbn [firstFailure]. rewrite B. reflexivity.
  - intros S E B. apply generateQRCode_refused.
    rewrite selectData_wifi. unfold generateWiFiString.
    rewrite validateWiFiData_checks. cbn [firstFailure]. rewrite S, B.
    destruct (WiFiData.encryption (wifiData p)); [reflexivity | reflexivity | congruence].
Qed.

Lemma blank_required_field_never_rasterized_witness :
  generateQRCode URLStandard.URL_href (rasterizerResolving (lit "data:,"))
    (lit "sms") (textRequest (lit "hello")) [] =
  (Throw (ErrorObj (lit "Please enter a phone number")), []).
Proof.
  exact (proj1 (proj2 (proj2 (proj2
           (blank_required_field_never_rasterized URLStandard.URL_href
              (rasterizerResolving (lit "data:,")) (textRequest (lit "hello")) []))))
           eq_refl).
Defined.

(** X2. Of the six slots of the bundle, [generateQRCode] reads the one of
    the kind only: two bundles that agree on that slot give the same
    outcome and the same calls to the rasterizer. *)
Theorem only_the_slot_of_the_kind_is_read
  (U : jsstring -> option jsstring)
  (R : jsstring -> QRCodeToDataURLOptions -> result jsstring)
  (p q : QRCodeParams) (calls : list (jsstring * QRCodeToDataURLOptions)) :
  (url p = url q ->
   generateQRCode U R (lit "url") p calls = generateQRCode U R (lit "url") q calls)
  /\ (vcardData p = vcardData q ->
      generateQRCode U R (lit "vcard") p calls = generateQRCode U R (lit "vcard") q calls)
  /\ (emailData p = emailData q ->
      generateQRCode U R (lit "email") p calls = generateQRCode U R (lit "email") q calls)
  /\ (smsData p = smsData q ->
      generateQRCode U R (lit "sms") p calls = generateQRCode U R (lit "sms") q calls)
  /\ (text p = text q ->
      generateQRCode U R (lit "text") p calls = generateQRCode U R (lit "text") q calls)
  /\ (wifiData p = wifiData q ->
      generateQRCode U R (lit "wifi") p calls = generateQRCode U R (lit "wifi") q calls).
Proof.
  repeat split; intros E; rewrite !generateQRCode_outcome.
  - rewrite !selectData_url, E. reflexivity.
  - rewrite !selectData_vcard, E. reflexivity.
  - rewrite !selectData_email, E. reflexivity.
  - rewrite !selectData_sms, E. reflexivity.
  - rewrite !selectData_text, E. reflexivity.
  - rewrite !selectData_wifi, E. reflexivity.
Qed.

Lemma only_the_slot_of_the_kind_is_read_witness :
  generateQRCode URLStandard.URL_href (rasterizerResolving (lit "data:,"))
    (lit "text") (textRequest (lit "hello")) [] =
  generateQRCode URLStandard.URL_href (rasterizerResolving (lit "data:,"))
    (lit "text")
    {| url := lit "example.com"; vcardData := janeDoe; emailData := noEmail;
       smsData := noSMS; text := lit "hello"; wifiData := homeWiFi |} [].
Proof.
  exact (proj1 (proj2 (proj2 (proj2 (proj2
           (only_the_slot_of_the_kind_is_read URLStandard.URL_href
              (rasterizerResolving (lit "data:,")) (textRequest (lit "hello"))
              {| url := lit "example.com"; vcardData := janeDoe; emailData := noEmail;
                 smsData := noSMS; text := lit "hello"; wifiData := homeWiFi |} [])))))
           eq_refl).
Defined.

(** X3. When [generateQRCode] succeeds, validation has passed, the
    rasterizer was called exactly once, on the text of the kind and with
    width 400, margin 2, error correction M, black on white, and the result
    is the data URI the rasterizer resolved to. *)
Theorem success_is_what_the_rasterizer_resolved
  (U : jsstring -> option jsstring)
  (R : jsstring -> QRCodeToDataURLOptions -> result jsstring)
  (type : jsstring) (p : QRCodeParams)
  (calls : list (jsstring * QRCodeToDataURLOptions)) (dataUri : jsstring) :
  fst (generateQRCode U R type p calls) = Return dataUri ->
  exists data,
    selectData U type p = Return data
    /\ R data {| width := 400; margin := 2; errorCorrectionLevel := lit "M";
                 color_dark := lit "#000000"; color_light := lit "#ffffff" |}
       = Return dataUri
    /\ snd (generateQRCode U R type p calls) =
       calls ++ [(data, {| width := 400; margin := 2; errorCorrectionLevel := lit "M";
                           color_dark := lit "#000000"; color_light := lit "#ffffff" |})].
Proof.
  rewrite generateQRCode_outcome.
  destruct (selectData U type p) as [data|e]; cbn [fst snd]; [|discriminate].
  intros H. exists data. split; [reflexivity|]. split; [|reflexivity].
  fold qrOptions. destruct (R data qrOptions); [exact H | discriminate].
Qed.

Lemma success_is_what_the_rasterizer_resolved_witness :
  exists data,
    selectData URLStandard.URL_href (lit "wifi")
      {| url := lit ""; vcardData := janeDoe; emailData := noEmail; smsData := noSMS;
         text := lit ""; wifiData := homeWiFi |} = Return data
    /\ rasterizerResolving (lit "data:image/png;base64,AAAA") data
         {| width := 400; margin := 2; errorCorrectionLevel := lit "M";
            color_dark := lit "#000000"; color_light := lit "#ffffff" |}
       = Return (lit "data:image/png;base64,AAAA")
    /\ snd (generateQRCode URLStandard.URL_href
              (rasterizerResolving (lit "data:image/png;base64,AAAA")) (lit "wifi")
              {| url := lit ""; vcardData := janeDoe; emailData := noEmail;
                 smsData := noSMS; text := lit ""; wifiData := homeWiFi |} []) =
       [] ++ [(data, {| width := 400; margin := 2; errorCorrectionLevel := lit "M";
                        color_dark := lit "#000000"; color_light := lit "#ffffff" |})].
Proof.
  exact (success_is_what_the_rasterizer_resolved URLStandard.URL_href
           (rasterizerResolving (lit "data:image/png;base64,AAAA")) (lit "wifi")
           {| url := lit ""; vcardData := janeDoe; emailData := noEmail; smsData := noSMS;
              text := lit ""; wifiData := homeWiFi |} []
           (lit "data:image/png;base64,AAAA") eq_refl).
Defined.

(** X4. The message "Failed to generate QR code. Please try again." never
    comes from validation or encoding: when [generateQRCode] fails with
    it, the text of the kind was built and the rasterizer rejected it,
    either with a value that is no [Error] or with an [Error] of that very
    message. *)
Theorem generic_message_comes_from_the_rasterizer
  (U : jsstring -> option jsstring)
  (R : jsstring -> QRCodeToDataURLOptions -> result jsstring)
  (type : jsstring) (p : QRCodeParams)
  (calls : list (jsstring * QRCodeToDataURLOptions)) :
  fst (generateQRCode U R type p calls) = Throw (ErrorObj genericMessage) ->
  exists data,
    selectData U type p = Return data
    /\ ((exists value, R data qrOptions = Throw (NonError value))
        \/ R data qrOptions = Throw (ErrorObj genericMessage)).
Proof.
  rewrite generateQRCode_outcome.
  destruct (selectData U type p) as [data|e] eqn:S; cbn [fst].
  - intros H. exists data. split; [reflexivity|].
    destruct (R data qrOptions) as [uri|[m| |v]]; cbn [instanceofError] in H.
    + discriminate H.
    + right. exact H.
    + discriminate H.
    + left. exists v. reflexivity.
  - intros [= ->]. apply selectData_throws_written in S.
    destruct S as [S | [m [[= <-] M]]]; [discriminate S|].
    exfalso. unfold writtenMessages, genericMessage in M. cbn [In] in M.
    repeat (destruct M as [M | M]; [vm_compute in M; discriminate M|]).
    exact M.
Qed.

Lemma generic_message_comes_from_the_rasterizer_witness :
  exists data,
    selectData URLStandard.URL_href (lit "text") (textRequest (lit "hello")) = Return data
    /\ ((exists value,
           rasterizerRejecting (NonError (lit "oops")) data qrOptions
           = Throw (NonError value))
        \/ rasterizerRejecting (NonError (lit "oops")) data qrOptions
           = Throw (ErrorObj genericMessage)).
Proof.
  exact (generic_message_comes_from_the_rasterizer URLStandard.URL_href
           (rasterizerRejecting (NonError (lit "oops"))) (lit "text")
           (textRequest (lit "hello")) [] eq_refl).
Defined.

(** ** White space around a URL *)

Lemma trimStart_padded (w s : jsstring) :
  blank w = true -> trimStart (w ++ s) = trimStart s.
Proof.
  unfold blank. induction w as [|c w IH]; simpl; [reflexivity|].
  intros H. apply andb_true_iff in H. destruct H as [-> H]. apply IH, H.
Qed.

Lemma trimEnd_padded (s w : jsstring) :
  blank w = true -> trimEnd (s ++ w) = trimEnd s.
Proof.
  intros B. unfold trimEnd. rewrite rev_app_distr, trimStart_padded; [reflexivity|].
  rewrite blank_rev. exact B.
Qed.

Lemma trimStart_app (s w : jsstring) :
  blank s = false -> trimStart (s ++ w) = trimStart s ++ w.
Proof.
  unfold blank. induction s as [|c s IH]; simpl; [discriminate|].
  destruct (isWhiteSpace c); simpl; [exact IH | reflexivity].
Qed.

(** Trimming ignores white space put around a string. *)
Lemma trim_padded (w1 s w2 : jsstring) :
  blank w1 = true -> blank w2 = true -> trim (w1 ++ s ++ w2) = trim s.
Proof.
  intros B1 B2. unfold trim. rewrite (trimStart_padded w1 _ B1).
  destruct (blank s) eqn:B.
  - rewrite (proj2 (trimStart_blank s) B).
    rewrite (proj2 (trimStart_blank (s ++ w2))); [reflexivity|].
    rewrite blank_app, B, B2. reflexivity.
  - rewrite (trimStart_app s w2 B). apply trimEnd_padded, B2.
Qed.

(** X5. White space around a URL changes nothing: padded on either side
    with white space, a URL is accepted or refused as it is unpadded, with
    the same result. *)
Theorem url_padding_is_ignored
  (U : jsstring -> option jsstring) (w1 u w2 : jsstring) :
  blank w1 = true -> blank w2 = true ->
  validateUrl U (w1 ++ u ++ w2) = validateUrl U u.
Proof.
  intros B1 B2. unfold validateUrl. rewrite (trim_padded w1 u w2 B1 B2). reflexivity.
Qed.

Lemma url_padding_is_ignored_witness :
  validateUrl URLStandard.URL_href (lit "  " ++ lit "example.com" ++ [9; LF])
  = validateUrl URLStandard.URL_href (lit "example.com").
Proof.
  exact (url_padding_is_ignored URLStandard.URL_href (lit "  ") (lit "example.com")
           [9; LF] eq_refl eq_refl).
Defined.

(** ** E-mail addresses *)

Lemma lang_plus_class (p : code_unit -> bool) (s : jsstring) :
  lang (RPlus (RClass p)) s <-> s <> [] /\ forallb p s = true.
Proof.
  rewrite <- matches_lang, matches_plus_class, andb_true_iff, truthy_true. tauto.
Qed.

Lemma lang_char (c : code_unit) (s : jsstring) : lang (RChar c) s <-> s = [c].
Proof.
  unfold RChar. cbn [lang]. split.
  - intros [x [-> E]]. apply N.eqb_eq in E. subst. reflexivity.
  - intros ->. exists c. split; [reflexivity | apply N.eqb_refl].
Qed.

(** The strings the e-mail pattern matches. *)
Lemma emailPattern_shape (s : jsstring) :
  matches emailPattern s = true <->
  exists local domain tld,
    s = local ++ 64 :: domain ++ 46 :: tld
    /\ local <> [] /\ domain <> [] /\ tld <> []
    /\ forallb notSpaceNorAt (local ++ domain ++ tld) = true.
Proof.
  rewrite matches_lang. unfold emailPattern.
  change (lang (RSeq ?a ?b) s) with (exists s1 s2, s = s1 ++ s2 /\ lang a s1 /\ lang b s2).
  split.
  - intros (l & r1 & -> & Hl & a & r2 & -> & Ha & dm & r3 & -> & Hd & dot & t & -> & Hdot & Ht).
    apply lang_plus_class in Hl, Hd, Ht. apply lang_char in Ha, Hdot. subst.
    exists l, dm, t. rewrite !forallb_app.
    destruct Hl as [? ->], Hd as [? ->], Ht as [? ->]. auto.
  - intros (l & dm & t & -> & Nl & Nd & Nt & F).
    rewrite !forallb_app, !andb_true_iff in F. destruct F as (Fl & Fd & Ft).
    exists l, (64 :: dm ++ 46 :: t). split; [reflexivity|].
    split; [apply lang_plus_class; auto|].
    exists [64], (dm ++ 46 :: t). split; [reflexivity|].
    split; [apply lang_char; reflexivity|].
    exists dm, (46 :: t). split; [reflexivity|].
    split; [apply lang_plus_class; auto|].
    exists [46], t. split; [reflexivity|].
    split; [apply lang_char; reflexivity | apply lang_plus_class; auto].
Qed.

(** A string the e-mail pattern matches is not blank. *)
Lemma emailPattern_not_blank (s : jsstring) :
  matches emailPattern s = true -> blank s = false.
Proof.
  intros H. pose proof (email_no_space s H) as W.
  apply emailPattern_shape in H. destruct H as (l & dm & t & -> & Nl & _).
  destruct l as [|c l]; [congruence|]. cbn [app forallb] in W.
  apply andb_true_iff in W. destruct W as [W _]. apply negb_true_iff in W.
  unfold blank. cbn [app forallb]. rewrite W. reflexivity.
Qed.

(** X6. [validateEmailData] accepts exactly the addresses of the form
    local@domain.tld where the three parts are not empty and hold neither
    white space nor [@] (the parts may themselves hold dots). *)
Theorem email_is_accepted_iff_shaped (d : EmailData.t) :
  validateEmailData d = Return tt <->
  exists local domain tld,
    EmailData.email d = local ++ 64 :: domain ++ 46 :: tld
    /\ local <> [] /\ domain <> [] /\ tld <> []
    /\ forallb notSpaceNorAt (local ++ domain ++ tld) = true.
Proof.
  rewrite <- emailPattern_shape, validateEmailData_checks. cbn [firstFailure].
  split.
  - destruct (blank (EmailData.email d)); [discriminate|].
    destruct (matches emailPattern (EmailData.email d)); [reflexivity | discriminate].
  - intros M. rewrite (emailPattern_not_blank _ M), M. reflexivity.
Qed.

Lemma email_is_accepted_iff_shaped_witness :
  validateEmailData
    {| EmailData.email := lit "a@b.com"; EmailData.subject := lit "";
       EmailData.body := lit "" |} = Return tt.
Proof.
  apply (proj2 (email_is_accepted_iff_shaped
                  {| EmailData.email := lit "a@b.com"; EmailData.subject := lit "";
                     EmailData.body := lit "" |})).
  exists (lit "a"), (lit "b"), (lit "com").
  repeat split; try discriminate.
Defined.

(** X7. The address of a mailto request is matched as it is, without
    trimming: an address that is not blank but has white space at an end
    is refused with "Please enter a valid email address". *)
Theorem padded_email_is_refused (d : EmailData.t) :
  blank (EmailData.email d) = false ->
  trim (EmailData.email d) <> EmailData.email d ->
  generateEmailString d = Throw (ErrorObj (lit "Please enter a valid email address")).
Proof.
  intros B T. unfold generateEmailString.
  rewrite validateEmailData_checks. cbn [firstFailure]. rewrite B.
  destruct (matches emailPattern (EmailData.email d)) eqn:M; [|reflexivity].
  exfalso. apply T, trim_no_space, email_no_space, M.
Qed.

Lemma padded_email_is_refused_witness :
  generateEmailString
    {| EmailData.email := lit " a@b.com"; EmailData.subject := lit "";
       EmailData.body := lit "" |}
  = Throw (ErrorObj (lit "Please enter a valid email address")).
Proof.
  apply (padded_email_is_refused
           {| EmailData.email := lit " a@b.com"; EmailData.subject := lit "";
              EmailData.body := lit "" |}).
  - reflexivity.
  - vm_compute. discriminate.
Defined.

(** ** mailto and sms: when the encoding fails *)

Lemma uriUnreserved_not_surrogate (c : code_unit) :
  uriUnreserved c = true -> isLeadSurrogate c = false /\ isTrailSurrogate c = false.
Proof.
  intros H. apply uriUnreserved_range in H.
  unfold isLeadSurrogate, isTrailSurrogate. bool_to_prop. lia.
Qed.

Lemma isWellFormed_cons (c : code_unit) (r : jsstring) :
  isWellFormed (c :: r) =
  if isLeadSurrogate c then
    match r with
    | d :: r' => isTrailSurrogate d && isWellFormed r'
    | [] => false
    end
  else if isTrailSurrogate c then false
  else isWellFormed r.
Proof. reflexivity. Qed.

(** The encoding succeeds on the well-formed strings and throws a
    [URIError] on the others. *)
Lemma encodeURIComponent_outcome (s : jsstring) :
  if isWellFormed s then exists e, encodeURIComponent s = Return e
  else encodeURIComponent s = Throw URIErrorObj.
Proof.
  induction s as [|a|a b l IHl IHb] using list_pair_ind.
  - exists []. reflexivity.
  - simpl. destruct (uriUnreserved a) eqn:U.
    + destruct (uriUnreserved_not_surrogate a U) as [-> ->]. eexists. reflexivity.
    + destruct (isLeadSurrogate a); [reflexivity|].
      destruct (isTrailSurrogate a); [reflexivity | eexists; reflexivity].
  - rewrite encodeURIComponent_cons, isWellFormed_cons.
    destruct (uriUnreserved a) eqn:U.
    + destruct (uriUnreserved_not_surrogate a U) as [-> ->].
      destruct (isWellFormed (b :: l)).
      * destruct IHb as [e ->]. eexists. reflexivity.
      * rewrite IHb. reflexivity.
    + destruct (isLeadSurrogate a).
      * destruct (isTrailSurrogate b); cbn [andb]; [|reflexivity].
        destruct (isWellFormed l).
        -- destruct IHl as [e ->]. eexists. reflexivity.
        -- rewrite IHl. reflexivity.
      * destruct (isTrailSurrogate a); [reflexivity|].
        destruct (isWellFormed (b :: l)).
        -- destruct IHb as [e ->]. eexists. reflexivity.
        -- rewrite IHb. reflexivity.
Qed.

Lemma encodeURIComponent_returns_iff (s : jsstring) :
  (exists e, encodeURIComponent s = Return e) <-> isWellFormed s = true.
Proof.
  pose proof (encodeURIComponent_outcome s) as H.
  destruct (isWellFormed s); split; auto.
  - intros [e E]. rewrite H in E. discriminate E.
  - discriminate.
Qed.

Lemma encodeURIComponent_throws_iff (s : jsstring) :
  encodeURIComponent s = Throw URIErrorObj <-> isWellFormed s = false.
Proof.
  pose proof (encodeURIComponent_outcome s) as H.
  destruct (isWellFormed s); split; auto.
  - destruct H as [e ->]. discriminate.
  - discriminate.
Qed.

Lemma firstFailure_not_URIError (checks : list (bool * jsstring)) :
  firstFailure checks = Return tt \/ exists m, firstFailure checks = Throw (ErrorObj m).
Proof.
  destruct (firstFailure checks) as [[]|e] eqn:F; [left; reflexivity|].
  right. destruct (firstFailure_throws _ _ F) as [m [-> _]]. exists m. reflexivity.
Qed.

(** X8. The sms and mailto builders fail with a [URIError] exactly when
    validation passes and a percent-encoded field (the message; the
    subject or the body) holds a lone surrogate; they return exactly when
    validation passes and these fields are well formed. *)
Theorem encoding_fails_on_lone_surrogates_only :
  (forall d,
     generateSMSString d = Throw URIErrorObj <->
     validateSMSData d = Return tt /\ isWellFormed (SMSData.message d) = false)
  /\ (forall d,
        (exists out, generateSMSString d = Return out) <->
        validateSMSData d = Return tt /\ isWellFormed (SMSData.message d) = true)
  /\ (forall d,
        generateEmailString d = Throw URIErrorObj <->
        validateEmailData d = Return tt
        /\ (isWellFormed (EmailData.subject d) = false
            \/ isWellFormed (EmailData.body d) = false))
  /\ (forall d,
        (exists out, generateEmailString d = Return out) <->
        validateEmailData d = Return tt
        /\ isWellFormed (EmailData.subject d) = true
        /\ isWellFormed (EmailData.body d) = true).
Proof.
  split; [|split; [|split]]; intros d.
  - unfold generateSMSString. rewrite orElse_empty, <- encodeURIComponent_throws_iff.
    rewrite validateSMSData_checks.
    destruct (firstFailure_not_URIError
                [(blank (SMSData.phone d), lit "Please enter a phone number");
                 (negb (matches phonePattern (SMSData.phone d)),
                  lit "Please enter a valid phone number")]) as [-> | [m ->]];
      cbn [bind].
    + destruct (encodeURIComponent (SMSData.message d)) as [e|e] eqn:E; cbn [bind].
      * split; [discriminate | intros [_ H]; discriminate H].
      * rewrite (encodeURIComponent_throws _ _ E). tauto.
    + split; [discriminate | intros [H _]; discriminate H].
  - unfold generateSMSString. rewrite orElse_empty, <- encodeURIComponent_returns_iff.
    rewrite validateSMSData_checks.
    destruct (firstFailure_not_URIError
                [(blank (SMSData.phone d), lit "Please enter a phone number");
                 (negb (matches phonePattern (SMSData.phone d)),
                  lit "Please enter a valid phone number")]) as [-> | [m ->]];
      cbn [bind].
    + destruct (encodeURIComponent (SMSData.message d)) as [e|e] eqn:E; cbn [bind].
      * split; [intros _; split; [reflexivity | exists e; reflexivity]|].
        intros _. eexists. reflexivity.
      * split; [intros [o O]; discriminate O | intros [_ [o O]]; discriminate O].
    + split; [intros [o O]; discriminate O | intros [H _]; discriminate H].
  - unfold generateEmailString.
    rewrite !orElse_empty, <- !encodeURIComponent_throws_iff, validateEmailData_checks.
    destruct (firstFailure_not_URIError
                [(blank (EmailData.email d), lit "Please enter an email address");
                 (negb (matches emailPattern (EmailData.email d)),
                  lit "Please enter a valid email address")]) as [-> | [m ->]];
      cbn [bind].
    + destruct (encodeURIComponent (EmailData.subject d)) as [s|s] eqn:S; cbn [bind].
      * destruct (encodeURIComponent (EmailData.body d)) as [b|b] eqn:B; cbn [bind].
        -- split; [discriminate | intros [_ [H | H]]; discriminate H].
        -- rewrite (encodeURIComponent_throws _ _ B). tauto.
      * rewrite (encodeURIComponent_throws _ _ S). tauto.
    + split; [discriminate | intros [H _]; discriminate H].
  - unfold generateEmailString.
    rewrite !orElse_empty, <- !encodeURIComponent_returns_iff, validateEmailData_checks.
    destruct (firstFailure_not_URIError
                [(blank (EmailData.email d), lit "Please enter an email address");
                 (negb (matches emailPattern (EmailData.email d)),
                  lit "Please enter a valid email address")]) as [-> | [m ->]];
      cbn [bind].
    + destruct (encodeURIComponent (EmailData.subject d)) as [s|s] eqn:S; cbn [bind].
      * destruct (encodeURIComponent (EmailData.body d)) as [b|b] eqn:B; cbn [bind].
        -- split; [|intros _; eexists; reflexivity].
           intros _. repeat split; eexists; reflexivity.
        -- split; [intros [o O]; discriminate O|].
           intros (_ & _ & [o O]). discriminate O.
      * split; [intros [o O]; discriminate O|].
        intros (_ & [o O] & _). discriminate O.
    + split; [intros [o O]; discriminate O | intros [H _]; discriminate H].
Qed.

Lemma encoding_fails_on_lone_surrogates_only_witness :
  generateSMSString {| SMSData.phone := lit "555-1234"; SMSData.message := [0xDC00] |}
  = Throw URIErrorObj.
Proof.
  exact (proj2 (proj1 encoding_fails_on_lone_surrogates_only
                  {| SMSData.phone := lit "555-1234"; SMSData.message := [0xDC00] |})
           (conj eq_refl eq_refl)).
Defined.

Lemma emailPattern_one_at (s : jsstring) :
  matches emailPattern s = true -> count_occ N.eq_dec s 64 = 1%nat.
Proof.
  intros H. apply emailPattern_shape in H.
  destruct H as (l & dm & t & -> & _ & _ & _ & F).
  rewrite !forallb_app, !andb_true_iff in F. destruct F as (Fl & Fd & Ft).
  rewrite count_occ_app, count_occ_cons_eq by reflexivity.
  rewrite count_occ_app, count_occ_cons_neq by discriminate.
  rewrite (count_occ_none notSpaceNorAt l 64 Fl eq_refl),
    (count_occ_none notSpaceNorAt dm 64 Fd eq_refl),
    (count_occ_none notSpaceNorAt t 64 Ft eq_refl).
  reflexivity.
Qed.

(** X9. A mailto text holds exactly one [@], the one of the address: the
    [@] of a subject or a body is percent-encoded. *)
Theorem mailto_has_one_at (d : EmailData.t) (out : jsstring) :
  generateEmailString d = Return out -> count_occ N.eq_dec out 64 = 1%nat.
Proof.
  intros G. apply generateEmailString_returns in G.
  destruct G as [M (s & b & Es & Eb & ->)].
  pose proof (encodeURIComponent_safe _ _ Es) as [Ss _].
  pose proof (encodeURIComponent_safe _ _ Eb) as [Sb _].
  rewrite !count_occ_app, (emailPattern_one_at _ M),
    (count_occ_none uriSafe s 64 Ss eq_refl), (count_occ_none uriSafe b 64 Sb eq_refl).
  reflexivity.
Qed.

Lemma mailto_has_one_at_witness :
  count_occ N.eq_dec (lit "mailto:a@b.com?subject=me%40home&body=") 64 = 1%nat.
Proof.
  exact (mailto_has_one_at
           {| EmailData.email := lit "a@b.com"; EmailData.subject := lit "me@home";
              EmailData.body := lit "" |}
           (lit "mailto:a@b.com?subject=me%40home&body=") eq_refl).
Defined.

(** ** vCard: fields of white space, fields never checked, the address *)





(** X11. Validation of a contact reads the names, the e-mail and the four
    phone fields only: company, job title, address and website are never
    checked, so two contacts that agree on the seven fields read are both
    accepted or both refused, with the same error. *)
Theorem contact_validation_reads_seven_fields (d d' : VCardData.t) :
  VCardData.firstName d = VCardData.firstName d' ->
  VCardData.lastName d = VCardData.lastName d' ->
  VCardData.email d = VCardData.email d' ->
  VCardData.mobile d = VCardData.mobile d' ->
  VCardData.phone d = VCardData.phone d' ->
  VCardData.workPhone d = VCardData.workPhone d' ->
  VCardData.fax d = VCardData.fax d' ->
  validateVCardData d = validateVCardData d'.
Proof.
  intros E1 E2 E3 E4 E5 E6 E7. rewrite !validateVCardData_checks.
  rewrite E1, E2, E3, E4, E5, E6, E7. reflexivity.
Qed.

Lemma contact_validation_reads_seven_fields_witness :
  validateVCardData janeDoe =
  validateVCardData
    {| VCardData.firstName := lit "Jane"; VCardData.lastName := lit "Doe";
       VCardData.mobile := lit "+1 555-123-4567"; VCardData.phone := lit "";
       VCardData.workPhone := lit ""; VCardData.fax := lit "";
       VCardData.email := lit ""; VCardData.company := lit "Acme";
       VCardData.jobTitle := lit "CTO"; VCardData.street := lit "1 Main St";
       VCardData.city := lit "Springfield"; VCardData.zip := lit "12345";
       VCardData.state := lit "IL"; VCardData.country := lit "USA";
       VCardData.website := lit "not a url" |}.
Proof.
  exact (contact_validation_reads_seven_fields janeDoe
           {| VCardData.firstName := lit "Jane"; VCardData.lastName := lit "Doe";
              VCardData.mobile := lit "+1 555-123-4567"; VCardData.phone := lit "";
              VCardData.workPhone := lit ""; VCardData.fax := lit "";
              VCardData.email := lit ""; VCardData.company := lit "Acme";
              VCardData.jobTitle := lit "CTO"; VCardData.street := lit "1 Main St";
              VCardData.city := lit "Springfield"; VCardData.zip := lit "12345";
              VCardData.state := lit "IL"; VCardData.country := lit "USA";
              VCardData.website := lit "not a url" |}
           eq_refl eq_refl eq_refl eq_refl eq_refl eq_refl eq_refl).
Defined.

Lemma removeSemicolons_truthy (s : jsstring) :
  truthy (removeSemicolons s) = existsb (fun c => negb (c =? 59)) s.
Proof.
  unfold removeSemicolons. induction s as [|c s IH]; [reflexivity|].
  cbn [filter existsb]. destruct (negb (c =? 59)); [reflexivity | exact IH].
Qed.

Lemma addressLine_cases (d : VCardData.t) :
  addressLine d =
  if existsb (fun v => existsb (fun c => negb (c =? 59)) (trim v))
       [VCardData.street d; VCardData.city d; VCardData.state d;
        VCardData.zip d; VCardData.country d]
  then [lit "ADR:;;" ++ trim (VCardData.street d) ++ lit ";" ++ trim (VCardData.city d)
          ++ lit ";" ++ trim (VCardData.state d) ++ lit ";" ++ trim (VCardData.zip d)
          ++ lit ";" ++ trim (VCardData.country d)]
  else [].
Proof.
  unfold addressLine, addressParts. cbn [map existsb join].
  rewrite !removeSemicolons_truthy. reflexivity.
Qed.



(** ** vCard: reading the lines back *)

Lemma split_app_sep (sep : code_unit) (l rest : jsstring) :
  forallb (fun c => negb (c =? sep)) l = true ->
  URLStandard.split sep (l ++ sep :: rest) = l :: URLStandard.split sep rest.
Proof.
  induction l as [|c l IH]; cbn [app forallb URLStandard.split].
  - intros _. rewrite N.eqb_refl. reflexivity.
  - rewrite andb_true_iff, negb_true_iff. intros [-> H]. rewrite (IH H). reflexivity.
Qed.

Lemma split_no_sep (sep : code_unit) (l : jsstring) :
  forallb (fun c => negb (c =? sep)) l = true -> URLStandard.split sep l = [l].
Proof.
  induction l as [|c l IH]; cbn [forallb URLStandard.split]; [reflexivity|].
  rewrite andb_true_iff, negb_true_iff. intros [-> H]. rewrite (IH H). reflexivity.
Qed.

(** Splitting at the separator undoes joining, when no line holds it. *)
Lemma split_join (sep : code_unit) (lines : list jsstring) :
  lines <> [] ->
  forallb (forallb (fun c => negb (c =? sep))) lines = true ->
  URLStandard.split sep (join [sep] lines) = lines.
Proof.
  induction lines as [|a l IH]; [congruence|]. intros _.
  cbn [forallb]. rewrite andb_true_iff. intros [A L].
  destruct l as [|b l].
  - apply split_no_sep, A.
  - change (join [sep] (a :: b :: l)) with (a ++ sep :: join [sep] (b :: l)).
    rewrite (split_app_sep _ _ _ A), IH; [reflexivity | discriminate | exact L].
Qed.

Lemma hasNoLineFeed_app (a b : jsstring) :
  hasNoLineFeed (a ++ b) = hasNoLineFeed a && hasNoLineFeed b.
Proof. apply forallb_app. Qed.

Lemma hasNoLineFeed_trim (v : jsstring) :
  hasNoLineFeed v = true -> hasNoLineFeed (trim v) = true.
Proof. apply trim_forallb. Qed.

Lemma optionalLine_no_line_feed (label : string) (v : jsstring) :
  hasNoLineFeed (lit label) = true -> hasNoLineFeed v = true ->
  forallb hasNoLineFeed (optionalLine label v) = true.
Proof.
  intros A B. unfold optionalLine. destruct (truthy (trim v)); [|reflexivity].
  cbn [forallb]. rewrite hasNoLineFeed_app, A, (hasNoLineFeed_trim v B). reflexivity.
Qed.

Lemma optionalLine_length (label : string) (v : jsstring) :
  (List.length (optionalLine label v) <= 1)%nat.
Proof. unfold optionalLine. destruct (truthy (trim v)); simpl; lia. Qed.

Lemma vcardLines_no_line_feed (d : VCardData.t) :
  forallb hasNoLineFeed (allFields d) = true ->
  forallb hasNoLineFeed (vcardLines d) = true.
Proof.
  unfold allFields, optionalFields. cbn [forallb]. rewrite !andb_true_iff.
  intros (F1 & F2 & F3 & F4 & F5 & F6 & F7 & F8 & F9 & F10 & F11 & F12 & F13
          & F14 & F15 & _).
  unfold vcardLines, optionalLines. rewrite !forallb_app.
  rewrite !optionalLine_no_line_feed by (assumption || reflexivity).
  rewrite addressLine_cases.
  apply hasNoLineFeed_trim in F1, F2, F10, F11, F12, F13, F14.
  assert (A : forallb hasNoLineFeed
                [lit "ADR:;;" ++ trim (VCardData.street d) ++ lit ";"
                   ++ trim (VCardData.city d) ++ lit ";" ++ trim (VCardData.state d)
                   ++ lit ";" ++ trim (VCardData.zip d) ++ lit ";"
                   ++ trim (VCardData.country d)] = true).
  { cbn [forallb]. rewrite !hasNoLineFeed_app, F10, F11, F12, F13, F14. reflexivity. }
  assert (M : forallb hasNoLineFeed (mandatoryLines d) = true).
  { unfold mandatoryLines. cbn [forallb]. rewrite !hasNoLineFeed_app, F1, F2.
    reflexivity. }
  rewrite M. destruct (existsb _ _); [rewrite A|]; reflexivity.
Qed.

Lemma vcardLines_length (d : VCardData.t) :
  (5 <= List.length (vcardLines d) <= 14)%nat.
Proof.
  unfold vcardLines, optionalLines. rewrite !length_app, addressLine_cases.
  pose proof (optionalLine_length "EMAIL:" (VCardData.email d)).
  pose proof (optionalLine_length "TEL;TYPE=CELL:" (VCardData.mobile d)).
  pose proof (optionalLine_length "TEL;TYPE=HOME:" (VCardData.phone d)).
  pose proof (optionalLine_length "TEL;TYPE=WORK:" (VCardData.workPhone d)).
  pose proof (optionalLine_length "TEL;TYPE=FAX:" (VCardData.fax d)).
  pose proof (optionalLine_length "ORG:" (VCardData.company d)).
  pose proof (optionalLine_length "TITLE:" (VCardData.jobTitle d)).
  pose proof (optionalLine_length "URL:" (VCardData.website d)).
  destruct (existsb _ _); cbn [List.length mandatoryLines]; lia.
Qed.

(** X13. When no field of a valid contact holds a line feed, the vCard
    can be read back line by line: cut at the line feeds, it gives the
    mandatory lines, the optional lines written and END:VCARD, each field
    on a line of its own; there are between 5 and 14 lines. *)
Theorem vcard_lines_are_read_back (d : VCardData.t) :
  validateVCardData d = Return tt ->
  forallb hasNoLineFeed (allFields d) = true ->
  exists out,
    generateVCardString d = Return out
    /\ URLStandard.split LF out = vcardLines d
    /\ (5 <= List.length (URLStandard.split LF out) <= 14)%nat.
Proof.
  intros V F. exists (join [LF] (vcardLines d)).
  assert (S : URLStandard.split LF (join [LF] (vcardLines d)) = vcardLines d).
  { apply split_join; [discriminate | apply vcardLines_no_line_feed, F]. }
  split; [rewrite generateVCardString_lines, V; reflexivity|].
  split; [exact S|]. rewrite S. apply vcardLines_length.
Qed.

Lemma vcard_lines_are_read_back_witness :
  exists out,
    generateVCardString janeDoe = Return out
    /\ URLStandard.split LF out = vcardLines janeDoe
    /\ (5 <= List.length (URLStandard.split LF out) <= 14)%nat.
Proof. exact (vcard_lines_are_read_back janeDoe eq_refl eq_refl). Defined.

(** ** Text that needs no escape *)

Lemma encodeURIComponent_unreserved (s : jsstring) :
  forallb uriUnreserved s = true -> encodeURIComponent s = Return s.
Proof.
  induction s as [|c r IH]; [reflexivity|].
  cbn [forallb]. rewrite andb_true_iff. intros [U R].
  rewrite encodeURIComponent_cons, U, (IH R). reflexivity.
Qed.

(** X14. A message, a subject or a body made of letters, digits and the
    marks - _ . ! ~ * ' ( ) only is written as it is: for an accepted sms
    record with such a message that is not empty the text is
    "sms:<phone>:<message>", and for an accepted mailto record with such a
    subject and body it is "mailto:<email>?subject=<subject>&body=<body>". *)
Theorem unreserved_text_is_written_as_it_is :
  (forall d,
     validateSMSData d = Return tt ->
     SMSData.message d <> [] ->
     forallb uriUnreserved (SMSData.message d) = true ->
     generateSMSString d =
     Return (lit "sms:" ++ SMSData.phone d ++ lit ":" ++ SMSData.message d))
  /\ (forall d,
        validateEmailData d = Return tt ->
        forallb uriUnreserved (EmailData.subject d) = true ->
        forallb uriUnreserved (EmailData.body d) = true ->
        generateEmailString d =
        Return (lit "mailto:" ++ EmailData.email d ++ lit "?subject="
                  ++ EmailData.subject d ++ lit "&body=" ++ EmailData.body d)).
Proof.
  split; intros d V.
  - intros N U. rewrite (generateSMSString_accepted d V),
      (encodeURIComponent_unreserved _ U).
    cbn [bind]. apply truthy_true in N. rewrite N. reflexivity.
  - intros S B. unfold generateEmailString.
    rewrite V, !orElse_empty, (encodeURIComponent_unreserved _ S),
      (encodeURIComponent_unreserved _ B).
    reflexivity.
Qed.

Lemma unreserved_text_is_written_as_it_is_witness :
  generateSMSString {| SMSData.phone := lit "555-1234"; SMSData.message := lit "Hello!" |}
  = Return (lit "sms:555-1234:Hello!").
Proof.
  refine (proj1 unreserved_text_is_written_as_it_is
            {| SMSData.phone := lit "555-1234"; SMSData.message := lit "Hello!" |}
            eq_refl _ eq_refl).
  discriminate.
Defined.

(** ** vCard: the lines of a contact *)



